(** * tuspyserver: a shallow embedding of the tus router and its store

    The development follows the Python sources file by file:
    [params.py] (the record), [file.py] (the upload file and the sweeper),
    [request.py] (the streaming dependency and the Location builder) and
    [router.py] (the routes).

    - Handlers are functions in a state-and-exception monad over the content
      of [files_dir], the clock and the log of completion calls.  An
      exception that escapes a handler is the response the framework sends:
      an [HTTPException] with its status code, any other exception as an
      internal error (500).  What was written before the exception stays.
    - A call is bound the way Python binds it: a parameter without default
      that the call site leaves out raises [TypeError] before the body runs
      ([Arg], [required]), and so does a keyword the signature does not
      have.
    - The module tuspyserver.info ([TusUploadInfo], which loads and saves
      the sidecar behind the property [file.info]) is not among the
      sources; its three operations are modelled from sections 4.1 and 4.2
      of the specification and marked as such.
    - [TusUploadFile] declares the property [info] and no attribute
      [params]: a read of [file.params] raises [AttributeError], and an
      assignment to it binds an attribute of the object and saves
      nothing. *)

From Stdlib Require Import ZArith String Ascii List Lia.
From Stdlib.Strings Require Import Byte.
From stdpp Require Import base option gmap strings list pretty.

Local Open Scope Z_scope.
Local Open Scope string_scope.

(** ** Python values used by the sources *)

Definition bytes := list byte.

(** [len(chunk)] *)
Definition len (b : bytes) : Z := Z.of_nat (length b).

(** [dict[Hashable, str]] of [TusUploadParams.metadata] *)
Abbreviation Metadata := (gmap string string).

(** [s.split(sep)] for a one-character separator *)
Fixpoint split (sep : ascii) (s : string) : list string :=
  match s with
  | EmptyString => [""]
  | String c rest =>
      if Ascii.eqb c sep then "" :: split sep rest
      else match split sep rest with
           | [] => [String c ""]
           | h :: t => String c h :: t
           end
  end.

(** [s.rsplit(sep, 1)]: the parts around the last separator, [None] when
    the result has a single element. *)
Fixpoint rsplit1 (sep : ascii) (s : string) : option (string * string) :=
  match s with
  | EmptyString => None
  | String c rest =>
      match rsplit1 sep rest with
      | Some (a, b) => Some (String c a, b)
      | None => if Ascii.eqb c sep then Some ("", rest) else None
      end
  end.

(** [len(s)] of a [str], the string being held in UTF-8: the number of its
    code points, which is the number of bytes that are not continuation
    bytes (10xxxxxx). *)
Definition is_continuation (c : ascii) : bool :=
  let n := nat_of_ascii c in
  Nat.leb 128 n && Nat.ltb n 192.

Definition str_len (s : string) : nat :=
  length (List.filter (fun c => negb (is_continuation c))
            (list_ascii_of_string s)).

(** ASCII white space, as [str.strip()] removes it (the white space of
    Unicode beyond ASCII is left out) *)
Definition is_space (c : ascii) : bool :=
  let n := nat_of_ascii c in
  Nat.eqb n 32 || (Nat.leb 9 n && Nat.leb n 13)
  || (Nat.leb 28 n && Nat.leb n 31).

Fixpoint lstrip (s : string) : string :=
  match s with
  | String c rest => if is_space c then lstrip rest else s
  | EmptyString => EmptyString
  end.

Definition reverse_string (s : string) : string :=
  string_of_list_ascii (rev (list_ascii_of_string s)).

(** [s.strip()] *)
Definition strip (s : string) : string :=
  reverse_string (lstrip (reverse_string (lstrip s))).

(** Exceptions other than [HTTPException] that the sources can raise. *)
Inductive PyExc :=
| TypeError | AttributeError | KeyError | NameError | ValueError
| ValidationError | OSError | OverflowError.

Inductive Exc :=
| HTTPException (status_code : Z)
| PyError (e : PyExc).

Inductive Result (A : Type) :=
| Ret (a : A)
| Raise (e : Exc).
Arguments Ret {A} a.
Arguments Raise {A} e.

(** How a call site binds a parameter that has no default value. *)
Inductive Arg (A : Type) :=
| Passed (a : A)
| Omitted.
Arguments Passed {A} a.
Arguments Omitted {A}.

(** ** params.py *)

Record TusUploadParams := {
  metadata : Metadata;
  size : Z;
  offset : Z;
  upload_part : Z;
  created_at : string;
  defer_length : bool;
  upload_chunk_size : Z;
  expires : option string;
}.

Definition set_size (v : Z) (p : TusUploadParams) : TusUploadParams :=
  {| metadata := metadata p; size := v; offset := offset p;
     upload_part := upload_part p; created_at := created_at p;
     defer_length := defer_length p;
     upload_chunk_size := upload_chunk_size p; expires := expires p |}.

Definition set_offset (v : Z) (p : TusUploadParams) : TusUploadParams :=
  {| metadata := metadata p; size := size p; offset := v;
     upload_part := upload_part p; created_at := created_at p;
     defer_length := defer_length p;
     upload_chunk_size := upload_chunk_size p; expires := expires p |}.

Definition set_upload_part (v : Z) (p : TusUploadParams) : TusUploadParams :=
  {| metadata := metadata p; size := size p; offset := offset p;
     upload_part := v; created_at := created_at p;
     defer_length := defer_length p;
     upload_chunk_size := upload_chunk_size p; expires := expires p |}.

Definition set_upload_chunk_size (v : Z) (p : TusUploadParams)
  : TusUploadParams :=
  {| metadata := metadata p; size := size p; offset := offset p;
     upload_part := upload_part p; created_at := created_at p;
     defer_length := defer_length p;
     upload_chunk_size := v; expires := expires p |}.

Definition set_expires (v : option string) (p : TusUploadParams)
  : TusUploadParams :=
  {| metadata := metadata p; size := size p; offset := offset p;
     upload_part := upload_part p; created_at := created_at p;
     defer_length := defer_length p;
     upload_chunk_size := upload_chunk_size p; expires := v |}.

(** Truth value of [expires] ([float | str | None], here the ISO string or
    [None]): [None] and the empty string are false. *)
Definition truthy_expires (e : option string) : bool :=
  match e with
  | None => false
  | Some s => negb (String.eqb s "")
  end.

(** ** Requests, responses, callables *)

(** Header names are matched without case by the framework; the map is keyed
    by the lower-case name. *)
Record Request := {
  req_headers : gmap string string;
  req_stream : list bytes;
}.

Inductive Body :=
| NoBody
| FileBody (path : string) (media_type : string) (filename : string).

Record Response := {
  status_code : Z;
  headers : gmap string string;
  body : Body;
}.

(** [response.headers[k] = v] *)
Definition set_header (k v : string) (r : Response) : Response :=
  {| status_code := status_code r; headers := <[k := v]> (headers r);
     body := body r |}.

Definition set_status (c : Z) (r : Response) : Response :=
  {| status_code := c; headers := headers r; body := body r |}.

(** The [Response] object the framework injects into a handler declared
    with [status_code=c]. *)
Definition fresh_response (c : Z) : Response :=
  {| status_code := c; headers := ∅; body := NoBody |}.

(** A completion callable: the built-in [lambda *_: None] or a callable of
    the host application, known by its name. *)
Inductive Callable :=
| Noop
| Hook (name : string).

(** One invocation of a host callable with [(file_path, metadata)]. *)
Record HookCall := {
  hc_callable : string;
  hc_path : string;
  hc_metadata : Metadata;
}.

(** ** router.py: [TusRouterOptions] *)

Record TusRouterOptions := {
  prefix : string;
  files_dir : string;
  max_size : Z;
  (** the guard: [None] lets the request through, [Some c] raises
      [HTTPException(c)] *)
  auth : Request -> option Z;
  days_to_keep : Z;
  on_upload_complete : option Callable;
  upload_complete_dep : Request -> Callable;
  tags : option (list string);
  tus_version : string;
  tus_extension : string;
}.

(** ** The store: the content of [files_dir], the clock, the hook log

    The directory is held as the store lays it out: a payload under the
    name of its upload, and next to it the record of the upload, the file
    [<uid>.info].  Both live in one directory, so the methods of file.py
    are modelled for the names the layout gives to payloads, the
    [upload_id]s below: a name ending in ".info" would also name the
    sidecar of another upload, and "", "." and ".." name directories.  The
    directory itself is taken to exist (the constructor creates it on
    demand). *)

Record World := {
  (** [files_dir/<uid>] *)
  payloads : gmap string bytes;
  (** [files_dir/<uid>.info], as the record it holds *)
  sidecars : gmap string TusUploadParams;
  (** invocations of host callables, oldest first *)
  hook_log : list HookCall;
  (** [datetime.now()], in seconds *)
  clock : Z;
  (** number of identifiers drawn from [uuid4] *)
  draws : nat;
}.

Definition with_payloads (f : gmap string bytes -> gmap string bytes)
  (w : World) : World :=
  {| payloads := f (payloads w); sidecars := sidecars w;
     hook_log := hook_log w; clock := clock w; draws := draws w |}.

Definition with_sidecars
  (f : gmap string TusUploadParams -> gmap string TusUploadParams)
  (w : World) : World :=
  {| payloads := payloads w; sidecars := f (sidecars w);
     hook_log := hook_log w; clock := clock w; draws := draws w |}.

Definition with_hook_log (f : list HookCall -> list HookCall)
  (w : World) : World :=
  {| payloads := payloads w; sidecars := sidecars w;
     hook_log := f (hook_log w); clock := clock w; draws := draws w |}.

Definition with_draws (f : nat -> nat) (w : World) : World :=
  {| payloads := payloads w; sidecars := sidecars w;
     hook_log := hook_log w; clock := clock w; draws := f (draws w) |}.

(** ** The monad of handlers *)

Definition M (A : Type) : Type := World -> Result A * World.

Definition ret {A} (a : A) : M A := fun w => (Ret a, w).

Definition raise {A} (e : Exc) : M A := fun w => (Raise e, w).

Definition bind {A B} (m : M A) (k : A -> M B) : M B :=
  fun w =>
    match m w with
    | (Ret a, w') => k a w'
    | (Raise e, w') => (Raise e, w')
    end.

Notation "'let*' x := m 'in' k" := (bind m (fun x => k))
  (at level 10, x name, m at level 100, k at level 200).
Notation "'run' m 'then' k" := (bind m (fun _ => k))
  (at level 10, m at level 100, k at level 200).

Definition get : M World := fun w => (Ret w, w).

Definition modify (f : World -> World) : M unit := fun w => (Ret tt, f w).

(** Binding of a parameter without default: a call that omits it raises
    [TypeError] before the body runs. *)
Definition required {A} (a : Arg A) : M A :=
  match a with
  | Passed a => ret a
  | Omitted => raise (PyError TypeError)
  end.

(** The status the client sees. *)
Definition status_of (r : Result Response) : Z :=
  match r with
  | Ret resp => status_code resp
  | Raise (HTTPException c) => c
  | Raise (PyError _) => 500
  end.

(** [os.path.join(a, b)] for a relative or absolute [b]. *)
Definition os_path_join (a b : string) : string :=
  if String.prefix "/" b then b
  else if String.eqb a "" then b
  else if String.eqb (String.substring (String.length a - 1) 1 a) "/"
       then a ++ b
       else a ++ "/" ++ b.

(** What the sources take from outside themselves: library functions
    (line numbers without a file name are those of router.py). *)
Record Platform := {
  (** [uuid4().hex], by number of the draw *)
  uuid4_hex : nat -> string;
  (** [base64.b64decode(v).decode("utf-8")]; [None] when it raises *)
  b64decode_utf8 : string -> option string;
  (** [base64.b64encode(s.encode("utf-8")).decode("ascii")] *)
  b64encode_utf8 : string -> string;
  (** [datetime.isoformat()] and [str(datetime)] of an instant *)
  isoformat : Z -> string;
}.

(** How the framework resolves [Depends(get_request_chunks)] on a PATCH.
    The dependency declares [options: TusRouterOptions] and [post_request:
    bool] among its parameters, so both come from the request and not from
    the router: [Resolved] is a call with what the request gave,
    [Unresolved] a request from which they cannot be built, in which case
    the dependency is not called and the request ends in 422 once the
    guard has run. *)
Inductive Resolution :=
| Resolved (options : TusRouterOptions) (post_request : bool)
| Unresolved.

(** ** file.py *)

Record TusUploadFile := {
  uid : string;
  _options : TusRouterOptions;
}.

Section Server.

Context (pf : Platform).

Definition uuid4 : M string :=
  fun w => (Ret (uuid4_hex pf (draws w)), with_draws S w).

(** Modelled from the spec: the constructor of [TusUploadInfo] (module
    tuspyserver.info is not among the sources).  Section 4.1, [create(id,
    record)]: create both files, the payload zero-length; without a record
    nothing is written and the sidecar is loaded on demand. *)
Definition TusUploadInfo_init (file : TusUploadFile)
  (params : option TusUploadParams) : M unit :=
  match params with
  | None => ret tt
  | Some p =>
      modify (fun w =>
        with_sidecars <[uid file := p]>
          (with_payloads (fun m =>
             match m !! uid file with
             | Some _ => m
             | None => <[uid file := []]> m
             end) w))
  end.

(** [TusUploadFile.__init__(self, uid, options, params=None)]: [uid] and
    [options] have no default.  [files_dir] is created on demand; the store
    is its content. *)
Definition TusUploadFile_init (uid_arg : Arg (option string))
  (options_arg : Arg TusRouterOptions) (params : option TusUploadParams)
  : M TusUploadFile :=
  let* u := required uid_arg in
  let* options := required options_arg in
  let* u' := match u with
             | None => uuid4
             | Some s => if String.eqb s "" then uuid4 else ret s
             end in
  let file := {| uid := u'; _options := options |} in
  run TusUploadInfo_init file params then
  ret file.

(** Modelled from the spec: the getter of the property [file.info], which
    returns [self._info.params] (section 4.1, [load(id)]): the record of
    the sidecar, or [None]. *)
Definition TusUploadFile_params (file : TusUploadFile)
  : M (option TusUploadParams) :=
  let* w := get in ret (sidecars w !! uid file).

(** Modelled from the spec: the setter of the property, [file.info =
    value] (section 4.2: a mutation persists via [save]). *)
Definition TusUploadFile_set_params (file : TusUploadFile)
  (value : TusUploadParams) : M unit :=
  modify (with_sidecars <[uid file := value]>).

(** [file.params], read: the class declares [uid], [_info], [_options],
    the properties [path], [options], [info] and [exists] and the methods
    below; it has no [params] and no [__getattr__]. *)
Definition TusUploadFile_getattr_params (file : TusUploadFile)
  : M (option TusUploadParams) :=
  raise (PyError AttributeError).

(** [file.params.<field>]: the read of [file.params], then that of a field
    of the record ([None] has none). *)
Definition TusUploadFile_params_record (file : TusUploadFile)
  : M TusUploadParams :=
  let* params := TusUploadFile_getattr_params file in
  match params with
  | Some p => ret p
  | None => raise (PyError AttributeError)
  end.

(** [file.params = value]: binds an attribute of the object; nothing is
    saved. *)
Definition TusUploadFile_setattr_params (file : TusUploadFile)
  (value : TusUploadParams) : M unit :=
  ret tt.

(** [TusUploadFile.exists], for a [uid] that is an [upload_id] *)
Definition TusUploadFile_exists (file : TusUploadFile) : M bool :=
  let* w := get in ret (bool_decide (is_Some (payloads w !! uid file))).

(** [TusUploadFile.path] *)
Definition TusUploadFile_path (file : TusUploadFile) : string :=
  os_path_join (files_dir (_options file)) (uid file).

(** [TusUploadFile.create]: [open(self.path, "a").close()] creates the
    payload when it is absent and leaves an existing one as it is. *)
Definition TusUploadFile_create (file : TusUploadFile) : M unit :=
  modify (with_payloads (fun m =>
    match m !! uid file with
    | Some _ => m
    | None => <[uid file := []]> m
    end)).

(** [TusUploadFile.read], for a [uid] that is an [upload_id] *)
Definition TusUploadFile_read (file : TusUploadFile) : M (option bytes) :=
  let* w := get in ret (payloads w !! uid file).

(** [TusUploadFile.delete(self, uid)], for an argument that is an
    [upload_id]: the payload [uid] and the sidecar [uid.info] are removed
    when they are there. *)
Definition TusUploadFile_delete (file : TusUploadFile) (uid_arg : Arg string)
  : M unit :=
  let* u := required uid_arg in
  run modify (with_payloads (delete u)) then
  modify (with_sidecars (delete u)).

(** [TusUploadFile.__len__(self, uid)] *)
Definition TusUploadFile_len (file : TusUploadFile) (uid_arg : Arg string)
  : M Z :=
  let* u := required uid_arg in
  let* w := get in
  match payloads w !! u with
  | Some b => ret (len b)
  | None => raise (PyError OSError)
  end.

(** [open(f"{files_dir}/{uuid}", "ab")]: the file is created when absent;
    with an empty name the path is the directory itself. *)
Definition open_ab (name : string) : M unit :=
  if String.eqb name "" then raise (PyError OSError)
  else modify (with_payloads (fun m =>
         match m !! name with
         | Some _ => m
         | None => <[name := []]> m
         end)).

(** [f.write(chunk)] on the file opened in append mode *)
Definition f_write (name : string) (chunk : bytes) : M unit :=
  modify (with_payloads (fun m =>
    <[name := (default [] (m !! name) ++ chunk)%list]> m)).

(** [os.listdir(files_dir)], the directory being there *)
Definition os_listdir : M (list string) :=
  let* w := get in
  ret (app (elements (dom (payloads w)))
           ((fun u => u ++ ".info") <$> elements (dom (sidecars w)))).

(** [datetime.<name>] in file.py, where [import datetime] binds the module,
    which has no attribute [fromisoformat] or [now]. *)
Definition datetime_module_attr {A} (name : string) : M A :=
  raise (PyError AttributeError).

(** [for x in l: body] *)
Fixpoint for_each {A} (l : list A) (body : A -> M unit) : M unit :=
  match l with
  | [] => ret tt
  | x :: rest => run body x then for_each rest body
  end.

Definition gc_files (options : TusRouterOptions) : M unit :=
  let* names := os_listdir in
  let uids := List.filter (fun f => Nat.eqb (str_len f) 32) names in
  for_each uids (fun uid =>
    (* [TusUploadFile(uid=uid)] *)
    let* file := TusUploadFile_init (Passed (Some uid)) Omitted None in
    (* [file.params.expires] *)
    let* p := TusUploadFile_params_record file in
    if truthy_expires (expires p) then
      let* t := datetime_module_attr "fromisoformat" in
      let* now := datetime_module_attr "now" in
      if (t <? now)%Z then
        (* [file.delete()] *)
        TusUploadFile_delete file Omitted
      else ret tt
    else ret tt).

(** ** request.py *)

(** The body of [async for chunk in request.stream()], with the loop
    variables [has_chunks] and [new_params]. *)
Fixpoint stream_chunks (options : TusRouterOptions) (file : TusUploadFile)
  (uuid : string) (chunks : list bytes) (has_chunks : bool)
  (new_params : TusUploadParams) : M (bool * TusUploadParams) :=
  match chunks with
  | [] => ret (has_chunks, new_params)
  | chunk :: rest =>
      if (len chunk =? 0)%Z then
        stream_chunks options file uuid rest true new_params
      else
        (* [len(file)] calls [__len__] with [self] alone *)
        let* n := TusUploadFile_len file Omitted in
        if n + len chunk >? max_size options then
          raise (HTTPException 413)
        else
          run f_write uuid chunk then
          let new_params :=
            set_offset (offset new_params + len chunk) new_params in
          let new_params :=
            set_upload_chunk_size (len chunk) new_params in
          let new_params :=
            set_upload_part (upload_part new_params + 1) new_params in
          run TusUploadFile_setattr_params file new_params then
          stream_chunks options file uuid rest true new_params
  end.

Definition get_request_chunks (request : Request)
  (options : TusRouterOptions) (uuid : string) (post_request : bool)
  : M bool :=
  let* file := TusUploadFile_init (Passed (Some uuid)) (Passed options) None in
  (* line 27: [not file.params or not file.exists] *)
  let* params := TusUploadFile_getattr_params file in
  match params with
  | None => ret false
  | Some _ =>
      let* ex := TusUploadFile_exists file in
      if negb ex then ret false
      else
        (* line 32: [new_params = file.params] *)
        let* new_params := TusUploadFile_params_record file in
        run open_ab uuid then
        let* st := stream_chunks options file uuid (req_stream request)
                     false new_params in
        let has_chunks := fst st in
        let new_params := snd st in
        if post_request && negb has_chunks then
          let new_params := set_offset 0 new_params in
          let new_params := set_upload_chunk_size 0 new_params in
          let new_params :=
            set_upload_part (upload_part new_params + 1) new_params in
          run TusUploadFile_setattr_params file new_params then
          ret true
        else ret true
  end.

(** A name that is neither a local, a parameter nor a module global. *)
Definition unbound_name {A} (name : string) : M A :=
  raise (PyError NameError).

(** [str(x)] of an optional string inside an f-string *)
Definition str_opt (o : option string) : string :=
  match o with
  | Some s => s
  | None => "None"
  end.

Record RequestHeaders := {
  location : string;
  proto : string;
  host : option string;
}.

(** [get_request_headers(request)]: [kwargs] are the keyword arguments of
    the call other than [request]; the signature accepts none.  The
    f-string of the result names [options] and [uuid], which the function
    does not bind. *)
Definition get_request_headers (request : Request) (kwargs : list string)
  : M RequestHeaders :=
  match kwargs with
  | _ :: _ => raise (PyError TypeError)
  | [] =>
      let proto := "http" in
      let host := req_headers request !! "host" in
      let proto := match req_headers request !! "x-forwarded-proto" with
                   | Some p => p
                   | None => proto
                   end in
      let host := match req_headers request !! "x-forwarded-host" with
                  | Some h => Some h
                  | None => host
                  end in
      let* options_prefix := unbound_name "options" in
      let* uuid := unbound_name "uuid" in
      ret {| location := proto ++ "://" ++ str_opt host ++ "/"
                           ++ options_prefix ++ "/" ++ uuid;
             proto := proto;
             host := host |}
  end.

(** ** router.py *)

(** [",".join(l)] *)
Fixpoint join (sep : string) (l : list string) : string :=
  match l with
  | [] => ""
  | [x] => x
  | x :: rest => x ++ sep ++ join sep rest
  end.

(** [create_tus_router]: the options the routes close over. *)
Definition create_tus_router (prefix : string) (files_dir : string)
  (max_size : Z) (auth : Request -> option Z) (days_to_keep : Z)
  (on_upload_complete : option Callable)
  (upload_complete_dep : option (Request -> Callable))
  (tags : option (list string)) : TusRouterOptions :=
  let prefix := match prefix with
                | String "/" rest => rest
                | _ => prefix
                end in
  let upload_complete_dep :=
    match upload_complete_dep with
    | Some d => d
    | None => fun _ => match on_upload_complete with
                       | Some h => h
                       | None => Noop
                       end
    end in
  {| prefix := prefix;
     files_dir := files_dir;
     max_size := max_size;
     auth := auth;
     days_to_keep := days_to_keep;
     on_upload_complete := on_upload_complete;
     upload_complete_dep := upload_complete_dep;
     tags := tags;
     tus_version := "1.0.0";
     tus_extension := join "," ["creation"; "creation-defer-length";
                                "creation-with-upload"; "expiration";
                                "termination"] |}.

(** [Depends(auth)] *)
Definition Depends_auth (options : TusRouterOptions) (request : Request)
  : M unit :=
  match auth options request with
  | Some c => raise (HTTPException c)
  | None => ret tt
  end.

(** A call [c(file_path, metadata)] of a completion callable (awaited when
    it returns an awaitable). *)
Definition call (c : Callable) (file_path : string) (md : Metadata)
  : M unit :=
  match c with
  | Noop => ret tt
  | Hook h =>
      modify (with_hook_log (fun l =>
        app l [{| hc_callable := h; hc_path := file_path;
                  hc_metadata := md |}]))
  end.

(** [file.params.file.paramsdata], [file.params] being the record bound at
    line 164: params.py declares no [file] on [TusUploadParams]. *)
Definition params_file_paramsdata (p : TusUploadParams) : M Metadata :=
  raise (PyError AttributeError).

(** [datetime.now()] of router.py *)
Definition datetime_now : M Z := let* w := get in ret (clock w).

(** [timedelta(days=d)], in seconds; the magnitude of [d] is at most
    999999999. *)
Definition timedelta_days (d : Z) : M Z :=
  if (999999999 <? Z.abs d)%Z then raise (PyError OverflowError)
  else ret (d * 86400).

(** [datetime.min] and [datetime.max], the first second of year 1 and the
    last of year 9999, in seconds like the clock *)
Definition datetime_min : Z := -62135596800.
Definition datetime_max : Z := 253402300799.

(** [t + delta] on a [datetime] *)
Definition datetime_add (t delta : Z) : M Z :=
  let r := t + delta in
  if (r <? datetime_min)%Z || (datetime_max <? r)%Z
  then raise (PyError OverflowError)
  else ret r.

(** The operands of [upload_offset + content_length]: a header that is
    absent is [None], and [+] on [None] raises [TypeError]. *)
Definition int_operands (a b : option Z) : M (Z * Z) :=
  match a, b with
  | Some x, Some y => ret (x, y)
  | _, _ => raise (PyError TypeError)
  end.

Definition core_head_route (options : TusRouterOptions) (request : Request)
  (uuid : string) : M Response :=
  run Depends_auth options request then
  let response := fresh_response 200 in
  let* file := TusUploadFile_init (Passed (Some uuid)) (Passed options) None in
  let* ex := TusUploadFile_exists file in
  (* [file.options is None] never holds: the constructor stores [options] *)
  if negb ex then raise (HTTPException 404)
  else
    let response := set_header "Tus-Resumable" (tus_version options) response in
    let* info := TusUploadFile_params file in
    match info with
    | None => raise (PyError AttributeError)
    | Some info =>
        let response := set_header "Content-Length" (pretty (size info)) response in
        let response := set_header "Upload-Length" (pretty (size info)) response in
        let response := set_header "Upload-Offset" (pretty (offset info)) response in
        let response := set_header "Cache-Control" "no-store" response in
        let* fn := match metadata info !! "filename" with
                   | Some v => ret v
                   | None => match metadata info !! "name" with
                             | Some v => ret v
                             | None => raise (HTTPException 400)
                             end
                   end in
        let* ft := match metadata info !! "filetype" with
                   | Some v => ret v
                   | None => match metadata info !! "type" with
                             | Some v => ret v
                             | None => raise (HTTPException 400)
                             end
                   end in
        let response :=
          set_header "Upload-Metadata"
            ("filename " ++ b64encode_utf8 pf fn ++ ", filetype "
               ++ b64encode_utf8 pf ft) response in
        ret (set_status 200 response)
    end.

(** The handler body of [core_patch_route], after its dependencies.  Up to
    line 161 every [file.params] is a read of the attribute the class does
    not have; from the assignment of line 164 on it is the record bound
    there. *)
Definition core_patch_handler (options : TusRouterOptions) (uuid : string)
  (content_length upload_offset : option Z) (on_complete : Callable)
  : M Response :=
  let response := fresh_response 204 in
  let* file := TusUploadFile_init (Passed (Some uuid)) (Passed options) None in
  (* line 146: [not file.params or uuid != file.uid] *)
  let* params := TusUploadFile_getattr_params file in
  if match params with
     | None => true
     | Some _ => negb (String.eqb uuid (uid file))
     end
  then raise (HTTPException 404)
  else
    (* line 150 *)
    let* p := TusUploadFile_params_record file in
    let* ops := int_operands upload_offset content_length in
    let upload_offset := fst ops in
    let content_length := snd ops in
    if negb (offset p =? upload_offset + content_length)%Z
    then raise (HTTPException 409)
    else
      (* lines 154-161 *)
      let* new_params := TusUploadFile_params_record file in
      let* p := TusUploadFile_params_record file in
      let new_params :=
        if defer_length p
        then set_size upload_offset new_params
        else new_params in
      let* p := TusUploadFile_params_record file in
      let* new_params :=
        if negb (truthy_expires (expires p)) then
          let* now := datetime_now in
          let* delta := timedelta_days (days_to_keep options) in
          let* date_expiry := datetime_add now delta in
          ret (set_expires (Some (isoformat pf date_expiry)) new_params)
        else ret new_params in
      (* line 164 *)
      run TusUploadFile_setattr_params file new_params then
      let p := new_params in
      let response := set_header "Tus-Resumable" (tus_version options) response in
      let* response :=
        if (size p =? offset p)%Z then
          let response :=
            set_header "Upload-Offset"
              (if (offset p >? 0)%Z then pretty (offset p)
               else pretty content_length) response in
          let response :=
            set_header "Upload-Expires" (str_opt (expires p)) response in
          let response := set_status 204 response in
          match on_upload_complete options with
          | Some h =>
              let* md := params_file_paramsdata p in
              run call h (os_path_join (files_dir options) uuid) md then
              ret response
          | None => ret response
          end
        else
          let response :=
            set_header "Upload-Offset" (pretty (offset p)) response in
          let response :=
            set_header "Upload-Expires" (str_opt (expires p)) response in
          ret (set_status 204 response) in
      if (size p =? offset p)%Z then
        let file_path := os_path_join (files_dir options) uuid in
        let* md := params_file_paramsdata p in
        run call on_complete file_path md then
        ret response
      else ret response.

(** [core_patch_route] with its dependencies, in the order of the
    signature: [get_request_chunks], the guard, the completion callable.
    A dependency the framework cannot resolve is passed over, the ones
    after it still run, and the request then ends in 422 without entering
    the handler. *)
Definition core_patch_route (options : TusRouterOptions)
  (resolution : Resolution) (request : Request) (uuid : string)
  (content_length upload_offset : option Z) : M Response :=
  match resolution with
  | Resolved dep_options post_request =>
      let* _streamed :=
        get_request_chunks request dep_options uuid post_request in
      run Depends_auth options request then
      let on_complete := upload_complete_dep options request in
      core_patch_handler options uuid content_length upload_offset on_complete
  | Unresolved =>
      run Depends_auth options request then
      raise (HTTPException 422)
  end.

Definition core_options_route (options : TusRouterOptions)
  (request : Request) : M Response :=
  run Depends_auth options request then
  let response := fresh_response 204 in
  let response := set_header "Tus-Extension" (tus_extension options) response in
  let response := set_header "Tus-Resumable" (tus_version options) response in
  let response := set_header "Tus-Version" (tus_version options) response in
  let response := set_header "Tus-Max-Size" (pretty (max_size options)) response in
  let response := set_header "Content-Length" (pretty 0) response in
  ret (set_status 204 response).

(** The loop of lines 228-231 over the parts of [Upload-Metadata]. *)
Fixpoint decode_metadata (kvs : list string) (metadata : Metadata)
  : M Metadata :=
  match kvs with
  | [] => ret metadata
  | kv :: rest =>
      match rsplit1 " " kv with
      | None => raise (PyError ValueError)
      | Some (key, value) =>
          match b64decode_utf8 pf (strip value) with
          | None => raise (PyError ValueError)
          | Some decoded_value =>
              decode_metadata rest (<[strip key := decoded_value]> metadata)
          end
      end
  end.

(** [TusUploadParams(...)]: the model validates its fields, and [size] is
    declared [int]. *)
Definition TusUploadParams_init (metadata : Metadata) (size : option Z)
  (offset upload_part : Z) (created_at : string) (defer_length : bool)
  (expires : option string) : M TusUploadParams :=
  match size with
  | None => raise (PyError ValidationError)
  | Some n =>
      ret {| metadata := metadata; size := n; offset := offset;
             upload_part := upload_part; created_at := created_at;
             defer_length := defer_length; upload_chunk_size := 0;
             expires := expires |}
  end.

Definition extension_creation_route (options : TusRouterOptions)
  (request : Request) (upload_metadata : option string)
  (upload_length upload_defer_length : option Z) : M Response :=
  run Depends_auth options request then
  let on_complete := upload_complete_dep options request in
  let response := fresh_response 201 in
  if match upload_defer_length with
     | Some d => negb (d =? 1)%Z
     | None => false
     end
  then raise (HTTPException 400)
  else
    let* now := datetime_now in
    let* delta := timedelta_days (days_to_keep options) in
    let* date_expiry := datetime_add now delta in
    let* md :=
      match upload_metadata with
      | None => ret ∅
      | Some um =>
          if String.eqb um "" then ret ∅
          else decode_metadata (split "," um) ∅
      end in
    let* params :=
      TusUploadParams_init md upload_length 0 0 (isoformat pf now)
        (bool_decide (is_Some upload_defer_length))
        (Some (isoformat pf date_expiry)) in
    (* [TusUploadFile(options=options, params=params)] *)
    let* file := TusUploadFile_init Omitted (Passed options) (Some params) in
    (* [get_request_headers(request=request, uuid=file.uid)] *)
    let* rh := get_request_headers request ["uuid"] in
    let response := set_header "Location" (location rh) response in
    let response := set_header "Tus-Resumable" (tus_version options) response in
    let response := set_header "Content-Length" (pretty 0) response in
    let response := set_status 201 response in
    (* [file.params and file.params.size == 0] *)
    let* params := TusUploadFile_getattr_params file in
    match params with
    | Some _ =>
        let* p := TusUploadFile_params_record file in
        if (size p =? 0)%Z then
          let file_path := os_path_join (files_dir options) (uid file) in
          let* p := TusUploadFile_params_record file in
          run call on_complete file_path (metadata p) then
          ret response
        else ret response
    | None => ret response
    end.

Definition extension_termination_route (options : TusRouterOptions)
  (request : Request) (uuid : string) : M Response :=
  run Depends_auth options request then
  let response := fresh_response 204 in
  let* file := TusUploadFile_init (Passed (Some uuid)) (Passed options) None in
  let* ex := TusUploadFile_exists file in
  if negb ex then raise (HTTPException 404)
  else
    (* [file.delete()] *)
    run TusUploadFile_delete file Omitted then
    let response := set_header "Tus-Resumable" (tus_version options) response in
    ret (set_status 204 response).

Definition options_upload_chunk (options : TusRouterOptions)
  (request : Request) (uuid : string) : M Response :=
  run Depends_auth options request then
  let response := fresh_response 204 in
  let* file := TusUploadFile_init (Passed (Some uuid)) (Passed options) None in
  let* info := TusUploadFile_params file in
  let* ex := TusUploadFile_exists file in
  match info with
  | None => raise (HTTPException 404)
  | Some _ =>
      if negb ex then raise (HTTPException 404)
      else
        let response := set_header "Tus-Extension" (tus_extension options) response in
        let response := set_header "Tus-Resumable" (tus_version options) response in
        let response := set_header "Tus-Version" (tus_version options) response in
        let response := set_header "Content-Length" (pretty 0) response in
        ret (set_status 204 response)
  end.

(** [extension_get_upload(uuid)]: the signature has no [Depends(auth)]. *)
Definition extension_get_upload (options : TusRouterOptions)
  (uuid : string) : M Response :=
  let* file := TusUploadFile_init (Passed (Some uuid)) (Passed options) None in
  let* info := TusUploadFile_params file in
  let* ex := TusUploadFile_exists file in
  match info with
  | None => raise (HTTPException 404)
  | Some info =>
      if negb ex then raise (HTTPException 404)
      else
        match metadata info !! "name" with
        | None => raise (PyError KeyError)
        | Some name =>
            ret {| status_code := 200;
                   headers := {[ "Content-Length" := pretty (offset info);
                                 "Tus-Resumable" := tus_version options ]};
                   body := FileBody (os_path_join (files_dir options) uuid)
                             "application/octet-stream" name |}
        end
  end.

End Server.

(** [s] has no character that [bad] marks. *)
Definition free_of (bad : ascii -> bool) (s : string) : bool :=
  forallb (fun c => negb (bad c)) (list_ascii_of_string s).

(** A string as base64 produces them: no white space, no comma. *)
Definition plain (s : string) : bool :=
  free_of is_space s && free_of (fun c => Ascii.eqb c ",") s.

(** The value HEAD takes for a name: that of [k1] when the key is present,
    else that of [k2] (lines 104-107 and 114-117). *)
Definition first_of (md : Metadata) (k1 k2 : string) : option string :=
  match md !! k1 with
  | Some v => Some v
  | None => md !! k2
  end.

(** The options of a router with another guard. *)
Definition with_auth (g : Request -> option Z) (o : TusRouterOptions)
  : TusRouterOptions :=
  {| prefix := prefix o; files_dir := files_dir o; max_size := max_size o;
     auth := g; days_to_keep := days_to_keep o;
     on_upload_complete := on_upload_complete o;
     upload_complete_dep := upload_complete_dep o; tags := tags o;
     tus_version := tus_version o; tus_extension := tus_extension o |}.

(** [s.endswith(suffix)] *)
Definition endswith (s suffix : string) : bool :=
  let n := String.length s in
  let k := String.length suffix in
  Nat.leb k n && String.eqb (String.substring (n - k) k s) suffix.

(** The names under which the layout holds a payload: a file name of its
    own (not the directory, no separator, no NUL) that is not the name of a
    sidecar.  The identifiers the constructor draws are of this kind. *)
Definition upload_id (u : string) : bool :=
  negb (String.eqb u "") && negb (String.eqb u ".")
  && negb (String.eqb u "..")
  && free_of (fun c => Ascii.eqb c "/" || Ascii.eqb c Ascii.zero) u
  && negb (endswith u ".info").

(** The date of line 223 exists: [days_to_keep] is a number of days a
    [timedelta] can hold and the sum is a date of the years 1 to 9999. *)
Definition expiry_in_range (now days : Z) : bool :=
  (Z.abs days <=? 999999999)%Z
  && (datetime_min <=? now + days * 86400)%Z
  && (now + days * 86400 <=? datetime_max)%Z.

(** ** Sample configurations, records and requests *)

Definition ex_id : string := "5f2b9c0e7a1d4e83b6c4d2a19e0f7b31".

Definition ex_platform : Platform :=
  {| uuid4_hex := fun _ => "0d1e2f3a4b5c69788796a5b4c3d2e1f0";
     b64decode_utf8 := fun _ => None;
     b64encode_utf8 := fun s => s;
     isoformat := pretty |}.

Definition allow : Request -> option Z := fun _ => None.

Definition deny : Request -> option Z := fun _ => Some 401.

(** [create_tus_router(files_dir="/tmp/files", max_size=..., auth=...,
    on_upload_complete=...)] *)
Definition ex_options (max_size : Z) (auth : Request -> option Z)
  (on_upload_complete : option Callable) : TusRouterOptions :=
  create_tus_router "files" "/tmp/files" max_size auth 5
    on_upload_complete None None.

Definition ex_metadata : Metadata :=
  {[ "filename" := "hello.txt"; "filetype" := "text/plain" ]}.

Definition ex_record (size offset : Z) (defer_length : bool)
  : TusUploadParams :=
  {| metadata := ex_metadata; size := size; offset := offset;
     upload_part := 0; created_at := "2026-01-01 10:00:00";
     defer_length := defer_length; upload_chunk_size := 0;
     expires := Some "2026-01-06T10:00:00" |}.

(** A store holding one upload, [ex_id]. *)
Definition ex_world (payload : bytes) (record : TusUploadParams) : World :=
  {| payloads := {[ ex_id := payload ]};
     sidecars := {[ ex_id := record ]};
     hook_log := [];
     clock := 1800000000;
     draws := 0 |}.

Definition ex_empty_world : World :=
  {| payloads := ∅; sidecars := ∅; hook_log := []; clock := 1800000000;
     draws := 0 |}.

Definition ex_request (stream : list bytes) : Request :=
  {| req_headers := {[ "host" := "example.org" ]}; req_stream := stream |}.

Definition abc : bytes := list_byte_of_string "abc".

(** A platform whose codec is the identity: enough to run the metadata
    loop on values without blanks and commas. *)
Definition ex_identity_codec : Platform :=
  {| uuid4_hex := fun _ => "0d1e2f3a4b5c69788796a5b4c3d2e1f0";
     b64decode_utf8 := fun s => Some s;
     b64encode_utf8 := fun s => s;
     isoformat := pretty |}.

(** * Properties *)

Section Properties.

Context (pf : Platform).

(** ** The constructor and the dependencies *)

Lemma TusUploadFile_init_uid (uuid : string) (options : TusRouterOptions)
  (w : World) :
  uuid <> "" ->
  TusUploadFile_init pf (Passed (Some uuid)) (Passed options) None w
  = (Ret {| uid := uuid; _options := options |}, w).
Proof.
  intros Hne. unfold TusUploadFile_init, required, bind, ret. cbn.
  destruct (String.eqb uuid "") eqn:E.
  - apply String.eqb_eq in E. contradiction.
  - reflexivity.
Qed.

Lemma Depends_auth_pass (options : TusRouterOptions) (request : Request)
  (w : World) :
  auth options request = None ->
  Depends_auth options request w = (Ret tt, w).
Proof. intros H. unfold Depends_auth. rewrite H. reflexivity. Qed.

Lemma Depends_auth_fail (options : TusRouterOptions) (request : Request)
  (c : Z) (w : World) :
  auth options request = Some c ->
  Depends_auth options request w = (Raise (HTTPException c), w).
Proof. intros H. unfold Depends_auth. rewrite H. reflexivity. Qed.

(** ** The streaming dependency *)

(** What the dependency does on any id: the constructor may draw an
    identifier (an empty [uuid]), then the read of [file.params] stops
    it. *)
Lemma get_request_chunks_cases (options : TusRouterOptions)
  (request : Request) (uuid : string) (post_request : bool) (w : World) :
  exists w',
    get_request_chunks pf request options uuid post_request w
    = (Raise (PyError AttributeError), w')
    /\ payloads w' = payloads w
    /\ sidecars w' = sidecars w
    /\ hook_log w' = hook_log w.
Proof.
  unfold get_request_chunks, TusUploadFile_init, TusUploadInfo_init,
    required, uuid4, bind, ret. cbn.
  destruct (String.eqb uuid ""); cbn; eexists; repeat split.
Qed.

(** The streaming dependency never gets to the body of the request: in
    PATCH and in POST mode, for every request and every content of the
    directory, it stops on the read of [file.params] (request.py, line 27)
    and leaves payloads, sidecars and the hook log as they were; it never
    answers 413. *)
Theorem get_request_chunks_outcome (options : TusRouterOptions)
  (request : Request) (uuid : string) (post_request : bool) (w : World) :
  let out := get_request_chunks pf request options uuid post_request w in
  fst out = Raise (PyError AttributeError)
  /\ payloads (snd out) = payloads w
  /\ sidecars (snd out) = sidecars w
  /\ hook_log (snd out) = hook_log w.
Proof.
  cbv zeta.
  destruct (get_request_chunks_cases options request uuid post_request w)
    as (w' & E & H).
  rewrite E. cbn. auto.
Qed.

(** The loop over the chunks (request.py, lines 36-50), entered with any
    record: it passes over empty chunks and stops on the first chunk that
    is not empty, at [len(file)], which calls [__len__(self, uid)] without
    [uid].  It writes nothing and never answers 413, whatever [max_size]
    is. *)
Theorem stream_chunks_outcome (options : TusRouterOptions)
  (file : TusUploadFile) (uuid : string) (chunks : list bytes) :
  forall (has_chunks : bool) (new_params : TusUploadParams) (w : World),
    let out := stream_chunks options file uuid chunks has_chunks
                 new_params w in
    snd out = w
    /\ (Forall (fun chunk => chunk = []) chunks ->
        fst out = Ret (match chunks with
                       | [] => has_chunks
                       | _ :: _ => true
                       end, new_params))
    /\ (Exists (fun chunk => chunk <> []) chunks ->
        fst out = Raise (PyError TypeError)).
Proof.
  induction chunks as [| chunk rest IH]; intros has_chunks new_params w.
  - cbn. repeat split. intros H. inversion H.
  - cbv zeta. cbn [stream_chunks]. destruct chunk as [| b chunk].
    + change (len [] =? 0)%Z with true. cbv iota.
      destruct (IH true new_params w) as (Hw & Hall & Hex).
      split; [exact Hw |]. split.
      * intros H. inversion H; subst. rewrite (Hall H3).
        destruct rest; reflexivity.
      * intros H. inversion H; subst; [congruence | auto].
    + assert (E : (len (b :: chunk) =? 0)%Z = false).
      { unfold len. cbn [length]. apply Z.eqb_neq. lia. }
      rewrite E. cbn. repeat split.
      intros H. inversion H; subst. discriminate.
Qed.

(** ** The sweeper and DELETE *)

Lemma TusUploadFile_init_no_options (u : option string)
  (params : option TusUploadParams) (w : World) :
  TusUploadFile_init pf (Passed u) Omitted params w
  = (Raise (PyError TypeError), w).
Proof. reflexivity. Qed.

(** The sweeper deletes nothing, whatever the directory holds. *)
Theorem gc_files_store_unchanged (options : TusRouterOptions) (w : World) :
  snd (gc_files pf options w) = w.
Proof.
  unfold gc_files, bind, os_listdir, get, ret. cbn.
  destruct (List.filter _ _) as [| uid0 rest]; reflexivity.
Qed.

Lemma upload_id_nonempty (u : string) : upload_id u = true -> u <> "".
Proof. intros H ->. discriminate. Qed.

(** DELETE on an upload id without payload is answered 404. *)
Theorem extension_termination_route_missing (options : TusRouterOptions)
  (request : Request) (uuid : string) (w : World) :
  upload_id uuid = true ->
  auth options request = None ->
  payloads w !! uuid = None ->
  extension_termination_route pf options request uuid w
  = (Raise (HTTPException 404), w).
Proof.
  intros Hid Ha Hp. unfold extension_termination_route, bind.
  rewrite (Depends_auth_pass _ _ _ Ha).
  rewrite (TusUploadFile_init_uid _ _ _ (upload_id_nonempty _ Hid)).
  unfold TusUploadFile_exists, bind, get, ret. cbn.
  rewrite bool_decide_eq_false_2; [reflexivity |].
  rewrite Hp. intros [x Hx]. discriminate.
Qed.

(** DELETE on an id with a payload removes nothing. *)
Theorem extension_termination_route_keeps_files (options : TusRouterOptions)
  (request : Request) (uuid : string) (w : World) :
  uuid <> "" ->
  auth options request = None ->
  is_Some (payloads w !! uuid) ->
  extension_termination_route pf options request uuid w
  = (Raise (PyError TypeError), w).
Proof.
  intros Hne Ha Hp. unfold extension_termination_route, bind.
  rewrite (Depends_auth_pass _ _ _ Ha).
  rewrite (TusUploadFile_init_uid _ _ _ Hne).
  unfold TusUploadFile_exists, bind, get, ret. cbn.
  rewrite bool_decide_eq_true_2 by exact Hp. reflexivity.
Qed.

(** ** POST *)

Lemma decode_metadata_pure (kvs : list string) :
  forall (md : Metadata) (w : World),
    exists r, decode_metadata pf kvs md w = (r, w).
Proof.
  induction kvs as [| kv rest IH]; intros md w; cbn.
  - eexists. reflexivity.
  - destruct (rsplit1 " " kv) as [[key value] |]; [| eexists; reflexivity].
    destruct (b64decode_utf8 pf (strip value)); [apply IH |].
    eexists. reflexivity.
Qed.

(** [timedelta(days=d)] and the sum of line 223, by the range of the
    date. *)
Lemma timedelta_days_in_range (d : Z) (w : World) :
  Z.abs d <= 999999999 -> timedelta_days d w = (Ret (d * 86400), w).
Proof.
  intros H. unfold timedelta_days.
  destruct (Z.ltb_spec 999999999 (Z.abs d)); [lia | reflexivity].
Qed.

Lemma datetime_add_in_range (t delta : Z) (w : World) :
  datetime_min <= t + delta <= datetime_max ->
  datetime_add t delta w = (Ret (t + delta), w).
Proof.
  intros H. unfold datetime_add. cbv zeta.
  destruct (Z.ltb_spec (t + delta) datetime_min); [lia |].
  destruct (Z.ltb_spec datetime_max (t + delta)); [lia | reflexivity].
Qed.

Lemma expiry_in_range_true (now days : Z) :
  expiry_in_range now days = true ->
  Z.abs days <= 999999999
  /\ datetime_min <= now + days * 86400 <= datetime_max.
Proof.
  unfold expiry_in_range. intros H.
  apply andb_prop in H as [H H3]. apply andb_prop in H as [H1 H2].
  apply Z.leb_le in H1, H2, H3. lia.
Qed.

(** From the construction of the record on, a POST is the same on every
    path. *)
Ltac creation_tail upload_length :=
  unfold ret, TusUploadParams_init; cbn;
  destruct upload_length; cbn; eexists; reflexivity.

(** Every POST ends in an exception and leaves the store as it was: when
    nothing else stops it, the construction of the upload file does. *)
Theorem extension_creation_route_raises (options : TusRouterOptions)
  (request : Request) (upload_metadata : option string)
  (upload_length upload_defer_length : option Z) (w : World) :
  exists e,
    extension_creation_route pf options request upload_metadata
      upload_length upload_defer_length w = (Raise e, w).
Proof.
  unfold extension_creation_route, bind, Depends_auth.
  destruct (auth options request); [eexists; reflexivity |]. cbn.
  destruct (match upload_defer_length with
            | Some d => negb (d =? 1)%Z
            | None => false
            end); [eexists; reflexivity |].
  unfold datetime_now, bind, get. cbn.
  unfold timedelta_days.
  destruct (999999999 <? Z.abs (days_to_keep options))%Z;
    [eexists; reflexivity |]. cbn.
  unfold datetime_add. cbv zeta.
  destruct ((clock w + days_to_keep options * 86400 <? datetime_min)%Z
            || (datetime_max <? clock w + days_to_keep options * 86400)%Z);
    [eexists; reflexivity |]. cbn.
  destruct upload_metadata as [um |]; [destruct (String.eqb um "") |].
  - creation_tail upload_length.
  - destruct (decode_metadata_pure (split "," um) ∅ w) as [r Hr].
    rewrite Hr. destruct r as [md | e]; [| eexists; reflexivity].
    creation_tail upload_length.
  - creation_tail upload_length.
Qed.

(** ** The router's options and OPTIONS *)

(** A leading "/" of the prefix is stripped, once. *)
Theorem create_tus_router_prefix (p files_dir : string) (max_size : Z)
  (auth : Request -> option Z) (days_to_keep : Z)
  (h : option Callable) (dep : option (Request -> Callable))
  (tags : option (list string)) :
  prefix (create_tus_router (String "/" p) files_dir max_size auth
            days_to_keep h dep tags) = p.
Proof. reflexivity. Qed.

(** OPTIONS on the collection, the guard passing: 204 with the five
    capability headers, the store untouched. *)
Theorem core_options_route_headers (options : TusRouterOptions)
  (request : Request) (w : World) :
  auth options request = None ->
  exists resp,
    core_options_route options request w = (Ret resp, w)
    /\ status_code resp = 204
    /\ headers resp !! "Tus-Extension" = Some (tus_extension options)
    /\ headers resp !! "Tus-Resumable" = Some (tus_version options)
    /\ headers resp !! "Tus-Version" = Some (tus_version options)
    /\ headers resp !! "Tus-Max-Size" = Some (pretty (max_size options))
    /\ headers resp !! "Content-Length" = Some "0".
Proof.
  intros Ha. unfold core_options_route, bind.
  rewrite (Depends_auth_pass _ _ _ Ha). unfold ret.
  eexists. split; [reflexivity |]. cbn.
  repeat split;
    repeat (first [ apply lookup_insert_eq
                  | rewrite lookup_insert_ne by discriminate ]).
Qed.

(** ** The guard *)

(** On OPTIONS, POST, HEAD, DELETE and OPTIONS on an upload, a guard that
    rejects the request ends it with the guard's error before the store is
    read or written. *)
Theorem guard_short_circuits (options : TusRouterOptions) (request : Request)
  (uuid : string) (um : option string) (ul udl : option Z) (c : Z)
  (w : World) :
  auth options request = Some c ->
  core_options_route options request w = (Raise (HTTPException c), w)
  /\ extension_creation_route pf options request um ul udl w
     = (Raise (HTTPException c), w)
  /\ core_head_route pf options request uuid w = (Raise (HTTPException c), w)
  /\ extension_termination_route pf options request uuid w
     = (Raise (HTTPException c), w)
  /\ options_upload_chunk pf options request uuid w
     = (Raise (HTTPException c), w).
Proof.
  intros Ha.
  unfold core_options_route, extension_creation_route, core_head_route,
    extension_termination_route, options_upload_chunk, bind.
  rewrite (Depends_auth_fail _ _ _ _ Ha). repeat split; reflexivity.
Qed.

(** GET answers the same whatever the guard is: it never consults it. *)
Theorem extension_get_upload_ignores_guard (options : TusRouterOptions)
  (g : Request -> option Z) (uuid : string) (w : World) :
  extension_get_upload pf (with_auth g options) uuid w
  = extension_get_upload pf options uuid w.
Proof.
  unfold extension_get_upload, TusUploadFile_init, TusUploadFile_params,
    TusUploadFile_exists, TusUploadInfo_init, required, uuid4, bind, get, ret.
  cbn. destruct (String.eqb uuid ""); reflexivity.
Qed.

(** ** PATCH *)

(** The handler of PATCH, entered with any headers and any completion
    callable, stops at line 146 on the read of [file.params]: before the
    sum of Upload-Offset and Content-Length, the offset check, the save
    and the completion calls.  Payloads, sidecars and hook log stay as
    they were. *)
Theorem core_patch_handler_stops (options : TusRouterOptions)
  (uuid : string) (content_length upload_offset : option Z)
  (on_complete : Callable) (w : World) :
  let out := core_patch_handler pf options uuid content_length
               upload_offset on_complete w in
  fst out = Raise (PyError AttributeError)
  /\ payloads (snd out) = payloads w
  /\ sidecars (snd out) = sidecars w
  /\ hook_log (snd out) = hook_log w.
Proof.
  cbv zeta.
  unfold core_patch_handler, TusUploadFile_init, TusUploadInfo_init,
    required, uuid4, bind, ret. cbn.
  destruct (String.eqb uuid ""); cbn; repeat split.
Qed.

(** How a PATCH ends, for every request, every id and every content of the
    directory.  When the streaming dependency is called, the request stops
    there on the read of [file.params], before the guard is consulted;
    when the framework cannot resolve the dependency, the request ends
    with the guard's error if the guard rejects it and with 422 if not.
    No PATCH is answered 204, 404, 409 or 413. *)
Theorem core_patch_route_outcome (options : TusRouterOptions)
  (resolution : Resolution) (request : Request) (uuid : string)
  (content_length upload_offset : option Z) (w : World) :
  fst (core_patch_route pf options resolution request uuid content_length
         upload_offset w)
  = Raise (match resolution, auth options request with
           | Resolved _ _, _ => PyError AttributeError
           | Unresolved, Some c => HTTPException c
           | Unresolved, None => HTTPException 422
           end).
Proof.
  destruct resolution as [dep_options post_request |];
    unfold core_patch_route, bind.
  - destruct (get_request_chunks_cases dep_options request uuid
                post_request w) as (w' & E & _).
    rewrite E. reflexivity.
  - unfold Depends_auth. destruct (auth options request); reflexivity.
Qed.

(** No PATCH writes: whatever the chunks, the headers, the guard and the
    way the dependency is resolved, the payloads, the sidecars and the
    hook log after the request are those before it.  No byte is appended,
    no record saved and no completion callable called. *)
Theorem core_patch_route_keeps_store (options : TusRouterOptions)
  (resolution : Resolution) (request : Request) (uuid : string)
  (content_length upload_offset : option Z) (w : World) :
  let out := core_patch_route pf options resolution request uuid
               content_length upload_offset w in
  payloads (snd out) = payloads w
  /\ sidecars (snd out) = sidecars w
  /\ hook_log (snd out) = hook_log w.
Proof.
  cbv zeta.
  destruct resolution as [dep_options post_request |];
    unfold core_patch_route, bind.
  - destruct (get_request_chunks_cases dep_options request uuid
                post_request w) as (w' & E & H).
    rewrite E. cbn. exact H.
  - unfold Depends_auth. destruct (auth options request); cbn; auto.
Qed.

(** ** HEAD: the file name *)

(** HEAD resolves the file name through "filename" before "name": a record
    with "filename" and "filetype" is answered 200 with both values in
    Upload-Metadata, whether or not it has a "name". *)
Theorem core_head_route_filename (options : TusRouterOptions)
  (request : Request) (uuid : string) (w : World) (info : TusUploadParams)
  (fn ft : string) :
  uuid <> "" ->
  auth options request = None ->
  sidecars w !! uuid = Some info ->
  is_Some (payloads w !! uuid) ->
  metadata info !! "filename" = Some fn ->
  metadata info !! "filetype" = Some ft ->
  exists resp,
    core_head_route pf options request uuid w = (Ret resp, w)
    /\ status_code resp = 200
    /\ headers resp !! "Upload-Metadata"
       = Some ("filename " ++ b64encode_utf8 pf fn ++ ", filetype "
                 ++ b64encode_utf8 pf ft)
    /\ headers resp !! "Upload-Offset" = Some (pretty (offset info)).
Proof.
  intros Hne Ha Hinfo Hpay Hfn Hft.
  unfold core_head_route, bind.
  rewrite (Depends_auth_pass _ _ _ Ha).
  rewrite (TusUploadFile_init_uid _ _ _ Hne).
  unfold TusUploadFile_exists, TusUploadFile_params, bind, get, ret. cbn.
  rewrite bool_decide_eq_true_2 by exact Hpay. cbn.
  rewrite Hinfo, Hfn, Hft. cbn.
  eexists. split; [reflexivity |]. cbn.
  split; [reflexivity |]. split.
  - apply lookup_insert_eq.
  - rewrite lookup_insert_ne by discriminate.
    rewrite lookup_insert_ne by discriminate.
    apply lookup_insert_eq.
Qed.

(** ** GET: the download name *)

(** C10.  A GET on an existing upload (sidecar and payload present) whose
    metadata has no key "name" stops on [metadata["name"]] with a
    [KeyError]: the client gets an internal error, neither 400 nor 404, and
    the store is untouched. *)
Theorem extension_get_upload_missing_name (options : TusRouterOptions)
  (uuid : string) (w : World) (info : TusUploadParams) :
  uuid <> "" ->
  sidecars w !! uuid = Some info ->
  is_Some (payloads w !! uuid) ->
  metadata info !! "name" = None ->
  extension_get_upload pf options uuid w = (Raise (PyError KeyError), w)
  /\ status_of (fst (extension_get_upload pf options uuid w)) = 500.
Proof.
  intros Hne Hinfo Hpay Hname.
  assert (E : extension_get_upload pf options uuid w
              = (Raise (PyError KeyError), w)).
  { unfold extension_get_upload, bind.
    rewrite (TusUploadFile_init_uid _ _ _ Hne).
    unfold TusUploadFile_params, TusUploadFile_exists, bind, get, ret. cbn.
    rewrite Hinfo. rewrite bool_decide_eq_true_2 by exact Hpay. cbn.
    rewrite Hname. reflexivity. }
  split; [exact E | rewrite E; reflexivity].
Qed.

End Properties.

(** ** The theorems at sample inputs *)

Lemma extension_get_upload_missing_name_witness :
  let w := ex_world abc (ex_record 3 3 false) in
  extension_get_upload ex_platform (ex_options 100 allow None) ex_id w
  = (Raise (PyError KeyError), w)
  /\ status_of (fst (extension_get_upload ex_platform
                        (ex_options 100 allow None) ex_id w)) = 500.
Proof.
  apply (extension_get_upload_missing_name ex_platform
           (ex_options 100 allow None) ex_id
           (ex_world abc (ex_record 3 3 false)) (ex_record 3 3 false)).
  - discriminate.
  - vm_compute. reflexivity.
  - vm_compute. eexists. reflexivity.
  - vm_compute. reflexivity.
Defined.

(** ** Where the routes part from the specification *)

(** C1.  A router configured with [on_upload_complete] receives the PATCH
    that completes an upload: the record has size 11 and offset 5, the
    payload holds "hello", and the request brings the six bytes " world"
    with Upload-Offset 5 and Content-Length 6.  The request never gets to
    the completion calls of lines 176 and 188: the streaming dependency
    stops on the read of [file.params] (or the framework answers 422
    without calling it), and so would the handler at line 146.  The hook is
    called zero times, not once; no byte is appended and the record keeps
    offset 5. *)
Theorem core_patch_route_completion_calls (pf : Platform)
  (resolution : Resolution) :
  let h := Hook "on_upload_complete" in
  let options := ex_options 100 allow (Some h) in
  let request := ex_request [list_byte_of_string " world"] in
  let w := ex_world (list_byte_of_string "hello") (ex_record 11 5 false) in
  let out := core_patch_route pf options resolution request ex_id (Some 6)
               (Some 5) w in
  (fst out = Raise (PyError AttributeError)
   \/ fst out = Raise (HTTPException 422))
  /\ hook_log (snd out) = []
  /\ payloads (snd out) !! ex_id = Some (list_byte_of_string "hello")
  /\ sidecars (snd out) !! ex_id = Some (ex_record 11 5 false)
  /\ core_patch_handler pf options ex_id (Some 6) (Some 5) h w
     = (Raise (PyError AttributeError), w).
Proof.
  cbv zeta. destruct resolution as [dep_options post_request |];
    repeat split;
    first [ left; vm_compute; reflexivity
          | right; vm_compute; reflexivity
          | vm_compute; reflexivity ].
Qed.

(** C2.  A PATCH whose offset does not match: the record is at offset 5,
    the request brings "hello" with Upload-Offset 0 and Content-Length 5.
    The check of line 150 is never evaluated: the request ends on the read
    of [file.params] (an internal error, 500) or in 422, not in 409; the
    record and the payload are as before. *)
Theorem core_patch_route_conflict (pf : Platform) (resolution : Resolution) :
  let options := ex_options 100 allow None in
  let request := ex_request [list_byte_of_string "hello"] in
  let w := ex_world (list_byte_of_string "hello") (ex_record 11 5 false) in
  let out := core_patch_route pf options resolution request ex_id (Some 5)
               (Some 0) w in
  (status_of (fst out) = 500 \/ status_of (fst out) = 422)
  /\ snd out = w
  /\ core_patch_handler pf options ex_id (Some 5) (Some 0) Noop w
     = (Raise (PyError AttributeError), w).
Proof.
  cbv zeta. destruct resolution as [dep_options post_request |];
    repeat split;
    first [ left; vm_compute; reflexivity
          | right; vm_compute; reflexivity
          | vm_compute; reflexivity ].
Qed.

(** C3.  With [max_size = 4], a PATCH brings the five bytes "hello" to an
    upload that holds "abc".  The request ends on the read of
    [file.params] (500) or in 422, not in 413, and nothing is written.  The
    size check of request.py, line 42, would not answer 413 either:
    [len(file)] calls [__len__(self, uid)] without [uid], so the loop,
    entered with the record of the upload, stops on a [TypeError]. *)
Theorem get_request_chunks_oversize_chunk (pf : Platform)
  (resolution : Resolution) :
  let options := ex_options 4 allow None in
  let request := ex_request [list_byte_of_string "hello"] in
  let record := ex_record 10 3 false in
  let w := ex_world abc record in
  let file := {| uid := ex_id; _options := options |} in
  let out := core_patch_route pf options resolution request ex_id (Some 5)
               (Some 3) w in
  get_request_chunks pf request options ex_id false w
  = (Raise (PyError AttributeError), w)
  /\ (status_of (fst out) = 500 \/ status_of (fst out) = 422)
  /\ payloads (snd out) !! ex_id = Some abc
  /\ TusUploadFile_len file Omitted w = (Raise (PyError TypeError), w)
  /\ stream_chunks options file ex_id (req_stream request) false record w
     = (Raise (PyError TypeError), w).
Proof.
  cbv zeta. destruct resolution as [dep_options post_request |];
    repeat split;
    first [ left; vm_compute; reflexivity
          | right; vm_compute; reflexivity
          | vm_compute; reflexivity ].
Qed.

(** C9.  A PATCH on a record created with a deferred length: the record is
    at offset 3 with size 0, the request brings "de" with Upload-Offset 3
    and Content-Length 2.  The assignment of line 157 is never reached: the
    request ends on the read of [file.params] or in 422, and the record
    keeps the size it had, 0, not the Upload-Offset 3. *)
Theorem core_patch_route_defer_length (pf : Platform)
  (resolution : Resolution) :
  let options := ex_options 100 allow None in
  let request := ex_request [list_byte_of_string "de"] in
  let w := ex_world abc (ex_record 0 3 true) in
  let out := core_patch_route pf options resolution request ex_id (Some 2)
               (Some 3) w in
  (fst out = Raise (PyError AttributeError)
   \/ fst out = Raise (HTTPException 422))
  /\ sidecars (snd out) !! ex_id = Some (ex_record 0 3 true)
  /\ size (ex_record 0 3 true) = 0
  /\ core_patch_handler pf options ex_id (Some 2) (Some 3) Noop w
     = (Raise (PyError AttributeError), w).
Proof.
  cbv zeta. destruct resolution as [dep_options post_request |];
    repeat split;
    first [ left; vm_compute; reflexivity
          | right; vm_compute; reflexivity
          | vm_compute; reflexivity ].
Qed.

(** C4.  A POST with Upload-Length 5 and the body "hello": the handler never
    reads the body ([get_request_chunks] is not among its dependencies and
    is not called), and it stops at the construction of the upload file,
    which omits [uid]: no payload, no record, no hook call. *)
Theorem extension_creation_route_with_body (pf : Platform) :
  let options := ex_options 100 allow (Some (Hook "on_upload_complete")) in
  let request := ex_request [list_byte_of_string "hello"] in
  extension_creation_route pf options request None (Some 5) None
    ex_empty_world
  = (Raise (PyError TypeError), ex_empty_world).
Proof. cbv zeta. vm_compute. reflexivity. Qed.

(** C5.  A POST with a Host header: the call of line 245 passes the keyword
    [uuid], which [get_request_headers(request)] does not accept, and the
    body of that function names [options] and [uuid] without binding them;
    no Location is computed and the POST ends in an internal error. *)
Theorem get_request_headers_location (pf : Platform) (w : World) :
  let request := ex_request [] in
  get_request_headers request ["uuid"] w = (Raise (PyError TypeError), w)
  /\ get_request_headers request [] w = (Raise (PyError NameError), w)
  /\ status_of (fst (extension_creation_route pf (ex_options 100 allow None)
                       request None (Some 11) None ex_empty_world)) = 500.
Proof. cbv zeta. repeat split; vm_compute; reflexivity. Qed.

(** C6.  A DELETE on an upload whose payload and sidecar exist: the handler
    calls [file.delete()] without the [uid] that [delete(self, uid)]
    requires; the request ends in an internal error and both files stay. *)
Theorem extension_termination_route_existing (pf : Platform) :
  let w := ex_world abc (ex_record 3 3 false) in
  let out := extension_termination_route pf (ex_options 100 allow None)
               (ex_request []) ex_id w in
  out = (Raise (PyError TypeError), w)
  /\ status_of (fst out) = 500
  /\ payloads (snd out) !! ex_id = Some abc
  /\ sidecars (snd out) !! ex_id = Some (ex_record 3 3 false).
Proof. cbv zeta. repeat split; vm_compute; reflexivity. Qed.

(** C7.  With a guard that rejects every request (401), GET on an existing
    upload still serves the payload: [extension_get_upload] declares no
    [Depends(auth)].  HEAD on the same upload is stopped by the guard. *)
Theorem extension_get_upload_unguarded (pf : Platform) :
  let options := ex_options 100 deny None in
  let record := {| metadata := {[ "name" := "hello.txt" ]}; size := 3;
                   offset := 3; upload_part := 1;
                   created_at := "2026-01-01 10:00:00";
                   defer_length := false; upload_chunk_size := 3;
                   expires := Some "2026-01-06T10:00:00" |} in
  let w := ex_world abc record in
  auth options (ex_request []) = Some 401
  /\ fst (core_head_route pf options (ex_request []) ex_id w)
     = Raise (HTTPException 401)
  /\ status_of (fst (extension_get_upload pf options ex_id w)) = 200
  /\ exists resp,
       fst (extension_get_upload pf options ex_id w) = Ret resp
       /\ body resp = FileBody "/tmp/files/5f2b9c0e7a1d4e83b6c4d2a19e0f7b31"
                        "application/octet-stream" "hello.txt".
Proof.
  cbv zeta. repeat split; try (vm_compute; reflexivity).
  eexists. split; vm_compute; reflexivity.
Qed.

(** C8.  The sweeper on a directory holding one upload whose [expires] is in
    the past: the loop body builds [TusUploadFile(uid=uid)] without the
    [options] the constructor requires and stops on a [TypeError]; the
    expired payload and sidecar are still there. *)
Theorem gc_files_expired_record (pf : Platform) :
  let record := {| metadata := ex_metadata; size := 3; offset := 3;
                   upload_part := 1; created_at := "2020-01-01 10:00:00";
                   defer_length := false; upload_chunk_size := 3;
                   expires := Some "2020-01-06T10:00:00" |} in
  let w := ex_world abc record in
  String.length ex_id = 32%nat
  /\ gc_files pf (ex_options 100 allow None) w
     = (Raise (PyError TypeError), w)
  /\ payloads (snd (gc_files pf (ex_options 100 allow None) w)) !! ex_id
     = Some abc.
Proof. cbv zeta. repeat split; vm_compute; reflexivity. Qed.

(** ** The general statements at sample inputs *)

Lemma extension_termination_route_missing_witness :
  extension_termination_route ex_platform (ex_options 100 allow None)
    (ex_request []) ex_id ex_empty_world
  = (Raise (HTTPException 404), ex_empty_world).
Proof.
  apply (extension_termination_route_missing ex_platform
           (ex_options 100 allow None) (ex_request []) ex_id ex_empty_world).
  - reflexivity.
  - reflexivity.
  - vm_compute. reflexivity.
Defined.

Lemma extension_termination_route_keeps_files_witness :
  extension_termination_route ex_platform (ex_options 100 allow None)
    (ex_request []) ex_id (ex_world abc (ex_record 3 3 false))
  = (Raise (PyError TypeError), ex_world abc (ex_record 3 3 false)).
Proof.
  apply (extension_termination_route_keeps_files ex_platform
           (ex_options 100 allow None) (ex_request []) ex_id
           (ex_world abc (ex_record 3 3 false))).
  - discriminate.
  - reflexivity.
  - vm_compute. eexists. reflexivity.
Defined.

Lemma guard_short_circuits_witness :
  let options := ex_options 100 deny None in
  let request := ex_request [] in
  let w := ex_world abc (ex_record 3 3 false) in
  core_options_route options request w = (Raise (HTTPException 401), w)
  /\ extension_creation_route ex_platform options request None (Some 3) None w
     = (Raise (HTTPException 401), w)
  /\ core_head_route ex_platform options request ex_id w
     = (Raise (HTTPException 401), w)
  /\ extension_termination_route ex_platform options request ex_id w
     = (Raise (HTTPException 401), w)
  /\ options_upload_chunk ex_platform options request ex_id w
     = (Raise (HTTPException 401), w).
Proof.
  apply (guard_short_circuits ex_platform (ex_options 100 deny None)
           (ex_request []) ex_id None (Some 3) None 401
           (ex_world abc (ex_record 3 3 false))).
  reflexivity.
Defined.

Lemma core_head_route_filename_witness :
  let w := ex_world abc (ex_record 3 3 false) in
  exists resp,
    core_head_route ex_platform (ex_options 100 allow None) (ex_request [])
      ex_id w = (Ret resp, w)
    /\ status_code resp = 200
    /\ headers resp !! "Upload-Metadata"
       = Some ("filename " ++ b64encode_utf8 ex_platform "hello.txt"
                 ++ ", filetype " ++ b64encode_utf8 ex_platform "text/plain")
    /\ headers resp !! "Upload-Offset"
       = Some (pretty (offset (ex_record 3 3 false))).
Proof.
  apply (core_head_route_filename ex_platform (ex_options 100 allow None)
           (ex_request []) ex_id (ex_world abc (ex_record 3 3 false))
           (ex_record 3 3 false) "hello.txt" "text/plain").
  - discriminate.
  - reflexivity.
  - vm_compute. reflexivity.
  - vm_compute. eexists. reflexivity.
  - vm_compute. reflexivity.
  - vm_compute. reflexivity.
Defined.

Lemma core_options_route_headers_witness :
  let options := create_tus_router "files" "/tmp/files" 128849018880 allow 5
                   None None None in
  exists resp,
    core_options_route options (ex_request []) ex_empty_world
    = (Ret resp, ex_empty_world)
    /\ status_code resp = 204
    /\ headers resp !! "Tus-Extension" = Some (tus_extension options)
    /\ headers resp !! "Tus-Resumable" = Some (tus_version options)
    /\ headers resp !! "Tus-Version" = Some (tus_version options)
    /\ headers resp !! "Tus-Max-Size" = Some (pretty (max_size options))
    /\ headers resp !! "Content-Length" = Some "0".
Proof.
  apply (core_options_route_headers
           (create_tus_router "files" "/tmp/files" 128849018880 allow 5
              None None None) (ex_request []) ex_empty_world).
  reflexivity.
Defined.

(** * Further properties of the sources *)

Section StoreMethods.

(** ** file.py: the methods of [TusUploadFile] *)

(** [delete(uid)], called with an upload id whose sidecar name holds no
    other file, removes the payload and the sidecar named by its argument,
    whatever the file's own [uid] is, touches no other upload, and is
    idempotent: the files it finds missing are no error. *)
Theorem TusUploadFile_delete_removes (file : TusUploadFile) (u : string)
  (w : World) :
  upload_id u = true ->
  payloads w !! (u ++ ".info") = None ->
  let w' := snd (TusUploadFile_delete file (Passed u) w) in
  fst (TusUploadFile_delete file (Passed u) w) = Ret tt
  /\ payloads w' !! u = None
  /\ sidecars w' !! u = None
  /\ (forall v, v <> u ->
        payloads w' !! v = payloads w !! v
        /\ sidecars w' !! v = sidecars w !! v)
  /\ TusUploadFile_delete file (Passed u) w' = (Ret tt, w').
Proof.
  intros _ _. destruct w as [pl sc hl ck dr]. cbn.
  repeat split.
  - apply lookup_delete_eq.
  - apply lookup_delete_eq.
  - apply lookup_delete_ne. congruence.
  - apply lookup_delete_ne. congruence.
  - unfold TusUploadFile_delete, bind, modify, with_payloads, with_sidecars.
    cbn. rewrite !delete_delete_eq. reflexivity.
Qed.


(** On a file whose [uid] is an upload id, [create] makes the payload
    exist without truncating it, and a chunk written in append mode comes
    after what the payload held: reading gives the old bytes followed by
    the chunk, and [__len__(uid)] their number.  Neither touches a
    sidecar. *)
Theorem TusUploadFile_create_write_read (file : TusUploadFile)
  (chunk : bytes) (w : World) :
  upload_id (uid file) = true ->
  let old := default [] (payloads w !! uid file) in
  let w1 := snd (TusUploadFile_create file w) in
  let w2 := snd (f_write (uid file) chunk w1) in
  TusUploadFile_exists file w1 = (Ret true, w1)
  /\ TusUploadFile_read file w1 = (Ret (Some old), w1)
  /\ TusUploadFile_read file w2 = (Ret (Some (app old chunk)), w2)
  /\ TusUploadFile_len file (Passed (uid file)) w2
     = (Ret (len old + len chunk), w2)
  /\ sidecars w2 = sidecars w.
Proof.
  intros _. destruct w as [pl sc hl ck dr].
  unfold TusUploadFile_exists, TusUploadFile_read, TusUploadFile_len,
    TusUploadFile_create, f_write, modify, with_payloads, bind, get, ret,
    required.
  unfold bytes in *. cbn.
  destruct (pl !! uid file) as [b |] eqn:Hb; cbn;
    rewrite ?Hb, ?lookup_insert_eq; cbn; rewrite ?lookup_insert_eq; cbn;
    unfold len; rewrite ?length_app, ?Nat2Z.inj_add; repeat split.
Qed.

End StoreMethods.

Section ReadingRoutes.

Context (pf : Platform).

(** ** router.py: HEAD, GET and OPTIONS on an upload *)

Ltac head_start Hne Ha Hinfo Hpay :=
  unfold core_head_route, bind;
  rewrite (Depends_auth_pass _ _ _ Ha);
  rewrite (TusUploadFile_init_uid pf _ _ _ Hne);
  unfold TusUploadFile_exists, TusUploadFile_params, bind, get, ret; cbn;
  rewrite bool_decide_eq_true_2 by exact Hpay; cbn;
  rewrite Hinfo.

(** HEAD on an upload with record and payload: the response when both
    names resolve. *)
Lemma core_head_route_existing (options : TusRouterOptions)
  (request : Request) (uuid : string) (w : World) (info : TusUploadParams)
  (fn ft : string) :
  uuid <> "" ->
  auth options request = None ->
  sidecars w !! uuid = Some info ->
  is_Some (payloads w !! uuid) ->
  first_of (metadata info) "filename" "name" = Some fn ->
  first_of (metadata info) "filetype" "type" = Some ft ->
  core_head_route pf options request uuid w
  = (Ret (set_status 200
            (set_header "Upload-Metadata"
               ("filename " ++ b64encode_utf8 pf fn ++ ", filetype "
                  ++ b64encode_utf8 pf ft)
               (set_header "Cache-Control" "no-store"
                  (set_header "Upload-Offset" (pretty (offset info))
                     (set_header "Upload-Length" (pretty (size info))
                        (set_header "Content-Length" (pretty (size info))
                           (set_header "Tus-Resumable" (tus_version options)
                              (fresh_response 200)))))))), w).
Proof.
  intros Hne Ha Hinfo Hpay Hfn Hft. head_start Hne Ha Hinfo Hpay.
  unfold first_of in Hfn, Hft.
  destruct (metadata info !! "filename") as [v1 |];
    [injection Hfn as -> | rewrite Hfn];
    (destruct (metadata info !! "filetype") as [v2 |];
     [injection Hft as -> | rewrite Hft]); reflexivity.
Qed.

(** HEAD on an existing upload, the guard passing.  The file name is the
    value of "filename", else of "name"; the file type that of "filetype",
    else of "type".  When both resolve the answer is 200 with Upload-Length
    and Content-Length the stored size, Upload-Offset the stored offset and
    both values encoded in Upload-Metadata; when one does not, 400.  The
    store is untouched. *)
Theorem core_head_route_outcome (options : TusRouterOptions)
  (request : Request) (uuid : string) (w : World) (info : TusUploadParams) :
  uuid <> "" ->
  auth options request = None ->
  sidecars w !! uuid = Some info ->
  is_Some (payloads w !! uuid) ->
  match first_of (metadata info) "filename" "name",
        first_of (metadata info) "filetype" "type" with
  | Some fn, Some ft =>
      exists resp,
        core_head_route pf options request uuid w = (Ret resp, w)
        /\ status_code resp = 200
        /\ headers resp !! "Tus-Resumable" = Some (tus_version options)
        /\ headers resp !! "Content-Length" = Some (pretty (size info))
        /\ headers resp !! "Upload-Length" = Some (pretty (size info))
        /\ headers resp !! "Upload-Offset" = Some (pretty (offset info))
        /\ headers resp !! "Cache-Control" = Some "no-store"
        /\ headers resp !! "Upload-Metadata"
           = Some ("filename " ++ b64encode_utf8 pf fn ++ ", filetype "
                     ++ b64encode_utf8 pf ft)
  | _, _ =>
      core_head_route pf options request uuid w
      = (Raise (HTTPException 400), w)
  end.
Proof.
  intros Hne Ha Hinfo Hpay.
  destruct (first_of (metadata info) "filename" "name") as [fn |] eqn:Hfn.
  - destruct (first_of (metadata info) "filetype" "type") as [ft |] eqn:Hft.
    + eexists. split.
      * apply (core_head_route_existing options request uuid w info fn ft);
          assumption.
      * cbn. repeat split;
          repeat (first [ apply lookup_insert_eq
                        | rewrite lookup_insert_ne by discriminate ]).
    + head_start Hne Ha Hinfo Hpay. unfold first_of in Hfn, Hft.
      destruct (metadata info !! "filename"); [| rewrite Hfn];
        (destruct (metadata info !! "filetype"); [discriminate |]);
        rewrite Hft; reflexivity.
  - head_start Hne Ha Hinfo Hpay. unfold first_of in Hfn.
    destruct (metadata info !! "filename"); [discriminate |].
    rewrite Hfn. reflexivity.
Qed.

(** HEAD tests the payload only: on an upload id without payload the
    answer is 404; with a payload but no record the handler stops on the
    first field it reads of the missing record, an internal error. *)
Theorem core_head_route_missing (options : TusRouterOptions)
  (request : Request) (uuid : string) (w : World) :
  upload_id uuid = true ->
  auth options request = None ->
  (payloads w !! uuid = None ->
   core_head_route pf options request uuid w
   = (Raise (HTTPException 404), w))
  /\ (is_Some (payloads w !! uuid) -> sidecars w !! uuid = None ->
      core_head_route pf options request uuid w
      = (Raise (PyError AttributeError), w)).
Proof.
  intros Hid Ha. pose proof (upload_id_nonempty _ Hid) as Hne. split.
  - intros Hp. unfold core_head_route, bind.
    rewrite (Depends_auth_pass _ _ _ Ha).
    rewrite (TusUploadFile_init_uid pf _ _ _ Hne).
    unfold TusUploadFile_exists, bind, get, ret. cbn.
    rewrite bool_decide_eq_false_2; [reflexivity |].
    rewrite Hp. intros [x Hx]. discriminate.
  - intros Hpay Hinfo. head_start Hne Ha Hinfo Hpay. reflexivity.
Qed.

(** OPTIONS on an upload, the guard passing: 404 unless record and payload
    both exist, else 204 with Tus-Extension, Tus-Resumable, Tus-Version and
    Content-Length 0, and no Tus-Max-Size. *)
Theorem options_upload_chunk_outcome (options : TusRouterOptions)
  (request : Request) (uuid : string) (w : World) :
  uuid <> "" ->
  auth options request = None ->
  (sidecars w !! uuid = None \/ payloads w !! uuid = None ->
   options_upload_chunk pf options request uuid w
   = (Raise (HTTPException 404), w))
  /\ (is_Some (sidecars w !! uuid) -> is_Some (payloads w !! uuid) ->
      exists resp,
        options_upload_chunk pf options request uuid w = (Ret resp, w)
        /\ status_code resp = 204
        /\ headers resp !! "Tus-Extension" = Some (tus_extension options)
        /\ headers resp !! "Tus-Resumable" = Some (tus_version options)
        /\ headers resp !! "Tus-Version" = Some (tus_version options)
        /\ headers resp !! "Content-Length" = Some "0"
        /\ headers resp !! "Tus-Max-Size" = None).
Proof.
  intros Hne Ha. split.
  - intros Hmiss. unfold options_upload_chunk, bind.
    rewrite (Depends_auth_pass _ _ _ Ha).
    rewrite (TusUploadFile_init_uid pf _ _ _ Hne).
    unfold TusUploadFile_exists, TusUploadFile_params, bind, get, ret. cbn.
    destruct (sidecars w !! uuid) as [info |]; [| reflexivity].
    destruct Hmiss as [Hs | Hp]; [discriminate |].
    rewrite bool_decide_eq_false_2; [reflexivity |].
    rewrite Hp. intros [x Hx]. discriminate.
  - intros [info Hinfo] Hpay. unfold options_upload_chunk, bind.
    rewrite (Depends_auth_pass _ _ _ Ha).
    rewrite (TusUploadFile_init_uid pf _ _ _ Hne).
    unfold TusUploadFile_exists, TusUploadFile_params, bind, get, ret. cbn.
    rewrite Hinfo. rewrite bool_decide_eq_true_2 by exact Hpay. cbn.
    eexists. split; [reflexivity |]. cbn.
    repeat split;
      repeat (first [ apply lookup_insert_eq
                    | rewrite lookup_insert_ne by discriminate ]).
Qed.


(** HEAD, GET and both OPTIONS routes never write: whatever the request,
    the guard and the outcome, the store after them is the store before. *)
Theorem reading_routes_keep_store (options : TusRouterOptions)
  (request : Request) (uuid : string) (w : World) :
  uuid <> "" ->
  snd (core_head_route pf options request uuid w) = w
  /\ snd (extension_get_upload pf options uuid w) = w
  /\ snd (options_upload_chunk pf options request uuid w) = w
  /\ snd (core_options_route options request w) = w.
Proof.
  intros Hne. repeat split.
  - unfold core_head_route, bind.
    destruct (auth options request) as [c |] eqn:Ha;
      [rewrite (Depends_auth_fail _ _ _ _ Ha); reflexivity |].
    rewrite (Depends_auth_pass _ _ _ Ha).
    rewrite (TusUploadFile_init_uid pf _ _ _ Hne).
    unfold TusUploadFile_exists, TusUploadFile_params, bind, get, ret. cbn.
    destruct (bool_decide (is_Some (payloads w !! uuid))); [| reflexivity].
    cbn. destruct (sidecars w !! uuid) as [info |]; [| reflexivity].
    destruct (metadata info !! "filename"), (metadata info !! "name"),
      (metadata info !! "filetype"), (metadata info !! "type"); reflexivity.
  - unfold extension_get_upload, bind.
    rewrite (TusUploadFile_init_uid pf _ _ _ Hne).
    unfold TusUploadFile_exists, TusUploadFile_params, bind, get, ret. cbn.
    destruct (sidecars w !! uuid) as [info |]; [| reflexivity].
    destruct (bool_decide (is_Some (payloads w !! uuid))); [| reflexivity].
    cbn. destruct (metadata info !! "name"); reflexivity.
  - unfold options_upload_chunk, bind.
    destruct (auth options request) as [c |] eqn:Ha;
      [rewrite (Depends_auth_fail _ _ _ _ Ha); reflexivity |].
    rewrite (Depends_auth_pass _ _ _ Ha).
    rewrite (TusUploadFile_init_uid pf _ _ _ Hne).
    unfold TusUploadFile_exists, TusUploadFile_params, bind, get, ret. cbn.
    destruct (sidecars w !! uuid) as [info |]; [| reflexivity].
    destruct (bool_decide (is_Some (payloads w !! uuid))); reflexivity.
  - unfold core_options_route, bind, Depends_auth.
    destruct (auth options request); reflexivity.
Qed.

End ReadingRoutes.

Section CreationAndSweep.

Context (pf : Platform).

(** ** router.py: POST *)

(** How a POST that passes the guard ends.  An Upload-Defer-Length other
    than 1 is answered 400.  Otherwise the date of expiry comes first
    (line 223): when [days_to_keep] days from now is no date, the POST
    stops on [OverflowError], whatever its headers.  When it is one, and
    without Upload-Metadata, a POST without Upload-Length stops on the
    validation of the record ([size] is an [int]), and a POST with
    Upload-Length on the construction of the upload file.  The store is
    unchanged in every case. *)
Theorem extension_creation_route_outcome (options : TusRouterOptions)
  (request : Request) (w : World) :
  auth options request = None ->
  (forall um ul d, d <> 1 ->
     extension_creation_route pf options request um ul (Some d) w
     = (Raise (HTTPException 400), w))
  /\ (forall um ul udl, udl = None \/ udl = Some 1 ->
      expiry_in_range (clock w) (days_to_keep options) = false ->
      extension_creation_route pf options request um ul udl w
      = (Raise (PyError OverflowError), w))
  /\ (forall udl, udl = None \/ udl = Some 1 ->
      expiry_in_range (clock w) (days_to_keep options) = true ->
      extension_creation_route pf options request None None udl w
      = (Raise (PyError ValidationError), w))
  /\ (forall udl n, udl = None \/ udl = Some 1 ->
      expiry_in_range (clock w) (days_to_keep options) = true ->
      extension_creation_route pf options request None (Some n) udl w
      = (Raise (PyError TypeError), w)).
Proof.
  intros Ha. repeat split.
  - intros um ul d Hd. unfold extension_creation_route, bind.
    rewrite (Depends_auth_pass _ _ _ Ha).
    destruct (Z.eqb_spec d 1); [contradiction | reflexivity].
  - intros um ul udl Hudl Hr.
    assert (Hcases : 999999999 < Z.abs (days_to_keep options)
                     \/ (Z.abs (days_to_keep options) <= 999999999
                         /\ (clock w + days_to_keep options * 86400
                               < datetime_min
                             \/ datetime_max
                                < clock w + days_to_keep options * 86400))).
    { unfold expiry_in_range in Hr.
      apply andb_false_iff in Hr as [Hr | Hr];
        [apply andb_false_iff in Hr as [Hr | Hr] |];
        apply Z.leb_gt in Hr; lia. }
    assert (Hd : forall udl', udl' = None \/ udl' = Some 1 ->
              match udl' with
              | Some d => negb (d =? 1)%Z
              | None => false
              end = false).
    { intros udl' [-> | ->]; reflexivity. }
    unfold extension_creation_route, bind.
    rewrite (Depends_auth_pass _ _ _ Ha). rewrite (Hd udl Hudl).
    unfold datetime_now, bind, get, ret.
    destruct Hcases as [Hbig | [Hsmall Hout]].
    + unfold timedelta_days.
      destruct (Z.ltb_spec 999999999 (Z.abs (days_to_keep options)));
        [reflexivity | lia].
    + rewrite (timedelta_days_in_range _ _ Hsmall).
      unfold datetime_add. cbv zeta.
      destruct (Z.ltb_spec (clock w + days_to_keep options * 86400)
                  datetime_min); [reflexivity |].
      destruct (Z.ltb_spec datetime_max
                  (clock w + days_to_keep options * 86400));
        [reflexivity | lia].
  - intros udl Hudl Hr.
    apply expiry_in_range_true in Hr as [Hd Hs].
    destruct Hudl as [-> | ->]; unfold extension_creation_route, bind;
      rewrite (Depends_auth_pass _ _ _ Ha); cbn;
      unfold datetime_now, bind, get, ret;
      rewrite (timedelta_days_in_range _ _ Hd);
      rewrite (datetime_add_in_range _ _ _ Hs); reflexivity.
  - intros udl n Hudl Hr.
    apply expiry_in_range_true in Hr as [Hd Hs].
    destruct Hudl as [-> | ->]; unfold extension_creation_route, bind;
      rewrite (Depends_auth_pass _ _ _ Ha); cbn;
      unfold datetime_now, bind, get, ret;
      rewrite (timedelta_days_in_range _ _ Hd);
      rewrite (datetime_add_in_range _ _ _ Hs); reflexivity.
Qed.

(** ** file.py: the sweeper *)

(** As soon as the directory holds an entry whose name has 32 characters,
    the payload of an upload or a sidecar, the sweeper stops on the
    [TypeError] of its first [TusUploadFile(uid=uid)], whether or not
    anything has expired, and removes nothing. *)
Theorem gc_files_outcome (options : TusRouterOptions) (w : World)
  (u : string) :
  (is_Some (payloads w !! u) /\ str_len u = 32%nat)
  \/ (is_Some (sidecars w !! u) /\ str_len (u ++ ".info") = 32%nat) ->
  gc_files pf options w = (Raise (PyError TypeError), w).
Proof.
  intros H. unfold gc_files, bind, os_listdir, get, ret. cbn.
  set (names := app (elements (dom (payloads w)))
                    ((fun u => u ++ ".info") <$> elements (dom (sidecars w)))).
  assert (Hin : exists f, In f names /\ Nat.eqb (str_len f) 32 = true).
  { destruct H as [[Hu Hlen] | [Hu Hlen]].
    - exists u. split; [| rewrite Hlen; reflexivity].
      apply list_elem_of_In. unfold names. apply elem_of_app. left.
      apply elem_of_elements, elem_of_dom. exact Hu.
    - exists (u ++ ".info"). split; [| rewrite Hlen; reflexivity].
      apply list_elem_of_In. unfold names. apply elem_of_app. right.
      apply list_elem_of_fmap. exists u. split; [reflexivity |].
      apply elem_of_elements, elem_of_dom. exact Hu. }
  destruct Hin as (f & Hf & Hlen).
  destruct (List.filter (fun f => Nat.eqb (str_len f) 32) names)
    as [| uid0 rest] eqn:E.
  - exfalso.
    assert (Hx : In f (List.filter (fun f => Nat.eqb (str_len f) 32) names))
      by (apply filter_In; auto).
    rewrite E in Hx. destruct Hx.
  - reflexivity.
Qed.

End CreationAndSweep.

Section Constructors.

(** ** router.py: the options *)

(** The router is the same with and without one leading "/" in the prefix:
    "/files" and "files" give equal options. *)
Theorem create_tus_router_leading_slash (p dir : string) (cap : Z)
  (guard : Request -> option Z) (days : Z) (h : option Callable)
  (dep : option (Request -> Callable)) (tg : option (list string)) :
  String.prefix "/" p = false ->
  create_tus_router (String "/" p) dir cap guard days h dep tg
  = create_tus_router p dir cap guard days h dep tg.
Proof.
  intros Hp. unfold create_tus_router.
  destruct p as [| c p']; [reflexivity |].
  destruct c as [[] [] [] [] [] [] [] []]; try reflexivity.
  destruct p'; vm_compute in Hp; discriminate.
Qed.

End Constructors.

Section MetadataRoundTrip.

Context (pf : Platform).

(** ** The Upload-Metadata header, from HEAD back through the loop of POST *)

Lemma free_of_cons (bad : ascii -> bool) (c : ascii) (s : string) :
  free_of bad (String c s) = negb (bad c) && free_of bad s.
Proof. reflexivity. Qed.

Lemma append_cons (c : ascii) (a b : string) :
  String c a ++ b = String c (a ++ b).
Proof. reflexivity. Qed.

Lemma append_assoc (a b c : string) : (a ++ b) ++ c = a ++ b ++ c.
Proof.
  induction a as [| x a IH]; [reflexivity |].
  rewrite !append_cons, IH. reflexivity.
Qed.

Lemma free_of_app (bad : ascii -> bool) (a b : string) :
  free_of bad (a ++ b) = free_of bad a && free_of bad b.
Proof.
  induction a as [| c a IH]; [reflexivity |].
  rewrite append_cons, !free_of_cons, IH. apply andb_assoc.
Qed.

Lemma split_free (sep : ascii) (s : string) :
  free_of (fun c => Ascii.eqb c sep) s = true -> split sep s = [s].
Proof.
  induction s as [| c s IH]; [reflexivity |].
  rewrite free_of_cons. intros H. apply andb_prop in H as [Hc Hs].
  cbn [split]. apply negb_true_iff in Hc. rewrite Hc, (IH Hs). reflexivity.
Qed.

Lemma split_app (sep : ascii) (a b : string) :
  free_of (fun c => Ascii.eqb c sep) a = true ->
  split sep (a ++ String sep b) = a :: split sep b.
Proof.
  induction a as [| c a IH]; intros H.
  - change ("" ++ String sep b) with (String sep b). cbn [split].
    rewrite Ascii.eqb_refl. reflexivity.
  - rewrite free_of_cons in H. apply andb_prop in H as [Hc Ha].
    rewrite append_cons. cbn [split]. apply negb_true_iff in Hc.
    rewrite Hc, (IH Ha). reflexivity.
Qed.

Lemma rsplit1_free (sep : ascii) (s : string) :
  free_of (fun c => Ascii.eqb c sep) s = true -> rsplit1 sep s = None.
Proof.
  induction s as [| c s IH]; [reflexivity |].
  rewrite free_of_cons. intros H. apply andb_prop in H as [Hc Hs].
  cbn [rsplit1]. apply negb_true_iff in Hc. rewrite (IH Hs), Hc.
  reflexivity.
Qed.

Lemma rsplit1_app (sep : ascii) (k v : string) :
  free_of (fun c => Ascii.eqb c sep) v = true ->
  rsplit1 sep (k ++ String sep v) = Some (k, v).
Proof.
  intros Hv. induction k as [| c k IH].
  - change ("" ++ String sep v) with (String sep v). cbn [rsplit1].
    rewrite (rsplit1_free sep v Hv), Ascii.eqb_refl. reflexivity.
  - rewrite append_cons. cbn [rsplit1]. rewrite IH. reflexivity.
Qed.

Lemma free_of_space (s : string) :
  free_of is_space s = true -> free_of (fun c => Ascii.eqb c " ") s = true.
Proof.
  unfold free_of. rewrite !forallb_forall. intros H c Hc.
  specialize (H c Hc). apply negb_true_iff in H. apply negb_true_iff.
  destruct (Ascii.eqb_spec c " ") as [-> | Hn]; [discriminate | reflexivity].
Qed.

Lemma lstrip_free (s : string) :
  free_of is_space s = true -> lstrip s = s.
Proof.
  destruct s as [| c s]; [reflexivity |].
  rewrite free_of_cons. intros H. apply andb_prop in H as [Hc _].
  apply negb_true_iff in Hc. cbn [lstrip]. rewrite Hc. reflexivity.
Qed.

Lemma free_of_reverse (bad : ascii -> bool) (s : string) :
  free_of bad s = true -> free_of bad (reverse_string s) = true.
Proof.
  unfold free_of, reverse_string.
  rewrite list_ascii_of_string_of_list_ascii, !forallb_forall.
  intros H c Hc. apply H. apply in_rev. exact Hc.
Qed.

Lemma reverse_string_involutive (s : string) :
  reverse_string (reverse_string s) = s.
Proof.
  unfold reverse_string.
  rewrite list_ascii_of_string_of_list_ascii, rev_involutive.
  apply string_of_list_ascii_of_string.
Qed.

(** [strip] leaves a string without white space as it is. *)
Lemma strip_free (s : string) : free_of is_space s = true -> strip s = s.
Proof.
  intros H. unfold strip. rewrite (lstrip_free s H).
  rewrite (lstrip_free _ (free_of_reverse _ _ H)).
  apply reverse_string_involutive.
Qed.

(** The loop of POST applied to a header in the format HEAD writes,
    "filename X, filetype Y" with [X] and [Y] free of blanks and commas,
    gives the map of "filename" and "filetype" to what [X] and [Y] decode
    to, and touches nothing. *)
Lemma decode_metadata_head_format (x y fn ft : string) (w : World) :
  plain x = true -> plain y = true ->
  b64decode_utf8 pf x = Some fn ->
  b64decode_utf8 pf y = Some ft ->
  decode_metadata pf (split "," ("filename " ++ x ++ ", filetype " ++ y)) ∅ w
  = (Ret (<["filetype" := ft]> (<["filename" := fn]> ∅)), w).
Proof.
  unfold plain. intros Hx Hy Dx Dy.
  apply andb_prop in Hx as [Hxs Hxc]. apply andb_prop in Hy as [Hys Hyc].
  assert (E : "filename " ++ x ++ ", filetype " ++ y
              = ("filename " ++ x) ++ String "," (" filetype " ++ y)).
  { rewrite append_assoc. reflexivity. }
  rewrite E. rewrite split_app.
  2:{ rewrite free_of_app, Hxc. reflexivity. }
  rewrite split_free.
  2:{ rewrite free_of_app, Hyc. reflexivity. }
  cbn [decode_metadata].
  change ("filename " ++ x) with ("filename" ++ String " " x).
  rewrite (rsplit1_app " " "filename" x (free_of_space x Hxs)).
  rewrite (strip_free x Hxs), Dx.
  change (" filetype " ++ y) with (" filetype" ++ String " " y).
  rewrite (rsplit1_app " " " filetype" y (free_of_space y Hys)).
  rewrite (strip_free y Hys), Dy.
  reflexivity.
Qed.

(** Round trip of the metadata.  On an existing upload whose names resolve
    to [fn] and [ft], HEAD answers with an Upload-Metadata header that the
    decoding loop of POST reads back as filename [fn] and filetype [ft],
    provided the codec decodes what it encoded and encodes without blanks
    and commas, as base64 does. *)
Theorem upload_metadata_round_trip (options : TusRouterOptions)
  (request : Request) (uuid : string) (w : World) (info : TusUploadParams)
  (fn ft : string) :
  uuid <> "" ->
  auth options request = None ->
  sidecars w !! uuid = Some info ->
  is_Some (payloads w !! uuid) ->
  first_of (metadata info) "filename" "name" = Some fn ->
  first_of (metadata info) "filetype" "type" = Some ft ->
  plain (b64encode_utf8 pf fn) = true ->
  plain (b64encode_utf8 pf ft) = true ->
  b64decode_utf8 pf (b64encode_utf8 pf fn) = Some fn ->
  b64decode_utf8 pf (b64encode_utf8 pf ft) = Some ft ->
  exists resp header,
    core_head_route pf options request uuid w = (Ret resp, w)
    /\ headers resp !! "Upload-Metadata" = Some header
    /\ forall w',
         decode_metadata pf (split "," header) ∅ w'
         = (Ret (<["filetype" := ft]> (<["filename" := fn]> ∅)), w').
Proof.
  intros Hne Ha Hinfo Hpay Hfn Hft Pfn Pft Dfn Dft.
  eexists. eexists. split; [| split].
  - apply (core_head_route_existing pf options request uuid w info fn ft);
      assumption.
  - cbn. apply lookup_insert_eq.
  - intros w'. apply decode_metadata_head_format; assumption.
Qed.

End MetadataRoundTrip.

(** ** The further properties at sample inputs *)

Lemma TusUploadFile_delete_removes_witness :
  let file := {| uid := "0d1e2f3a4b5c69788796a5b4c3d2e1f0";
                 _options := ex_options 100 allow None |} in
  let w := ex_world abc (ex_record 3 3 false) in
  let w' := snd (TusUploadFile_delete file (Passed ex_id) w) in
  fst (TusUploadFile_delete file (Passed ex_id) w) = Ret tt
  /\ payloads w' !! ex_id = None
  /\ sidecars w' !! ex_id = None
  /\ (forall v, v <> ex_id ->
        payloads w' !! v = payloads w !! v
        /\ sidecars w' !! v = sidecars w !! v)
  /\ TusUploadFile_delete file (Passed ex_id) w' = (Ret tt, w').
Proof.
  apply (TusUploadFile_delete_removes
           {| uid := "0d1e2f3a4b5c69788796a5b4c3d2e1f0";
              _options := ex_options 100 allow None |}
           ex_id (ex_world abc (ex_record 3 3 false))).
  - reflexivity.
  - vm_compute. reflexivity.
Defined.

Lemma TusUploadFile_create_write_read_witness :
  let file := {| uid := ex_id; _options := ex_options 100 allow None |} in
  let chunk := list_byte_of_string "de" in
  let w := ex_world abc (ex_record 11 3 false) in
  let old := default [] (payloads w !! uid file) in
  let w1 := snd (TusUploadFile_create file w) in
  let w2 := snd (f_write (uid file) chunk w1) in
  TusUploadFile_exists file w1 = (Ret true, w1)
  /\ TusUploadFile_read file w1 = (Ret (Some old), w1)
  /\ TusUploadFile_read file w2 = (Ret (Some (app old chunk)), w2)
  /\ TusUploadFile_len file (Passed (uid file)) w2
     = (Ret (len old + len chunk), w2)
  /\ sidecars w2 = sidecars w.
Proof.
  apply (TusUploadFile_create_write_read
           {| uid := ex_id; _options := ex_options 100 allow None |}
           (list_byte_of_string "de") (ex_world abc (ex_record 11 3 false))).
  reflexivity.
Defined.

Lemma core_head_route_outcome_witness :
  let info := ex_record 11 3 false in
  let w := ex_world abc info in
  let options := ex_options 100 allow None in
  match first_of (metadata info) "filename" "name",
        first_of (metadata info) "filetype" "type" with
  | Some fn, Some ft =>
      exists resp,
        core_head_route ex_platform options (ex_request []) ex_id w
        = (Ret resp, w)
        /\ status_code resp = 200
        /\ headers resp !! "Tus-Resumable" = Some (tus_version options)
        /\ headers resp !! "Content-Length" = Some (pretty (size info))
        /\ headers resp !! "Upload-Length" = Some (pretty (size info))
        /\ headers resp !! "Upload-Offset" = Some (pretty (offset info))
        /\ headers resp !! "Cache-Control" = Some "no-store"
        /\ headers resp !! "Upload-Metadata"
           = Some ("filename " ++ b64encode_utf8 ex_platform fn
                     ++ ", filetype " ++ b64encode_utf8 ex_platform ft)
  | _, _ =>
      core_head_route ex_platform options (ex_request []) ex_id w
      = (Raise (HTTPException 400), w)
  end.
Proof.
  apply (core_head_route_outcome ex_platform (ex_options 100 allow None)
           (ex_request []) ex_id (ex_world abc (ex_record 11 3 false))
           (ex_record 11 3 false)).
  - discriminate.
  - reflexivity.
  - vm_compute. reflexivity.
  - vm_compute. eexists. reflexivity.
Defined.

Lemma core_head_route_missing_witness :
  let options := ex_options 100 allow None in
  let w := with_sidecars (delete ex_id) (ex_world abc (ex_record 11 3 false)) in
  (payloads w !! ex_id = None ->
   core_head_route ex_platform options (ex_request []) ex_id w
   = (Raise (HTTPException 404), w))
  /\ (is_Some (payloads w !! ex_id) -> sidecars w !! ex_id = None ->
      core_head_route ex_platform options (ex_request []) ex_id w
      = (Raise (PyError AttributeError), w)).
Proof.
  apply (core_head_route_missing ex_platform (ex_options 100 allow None)
           (ex_request []) ex_id
           (with_sidecars (delete ex_id)
              (ex_world abc (ex_record 11 3 false)))).
  - reflexivity.
  - reflexivity.
Defined.

Lemma options_upload_chunk_outcome_witness :
  let options := ex_options 100 allow None in
  let w := ex_world abc (ex_record 11 3 false) in
  (sidecars w !! ex_id = None \/ payloads w !! ex_id = None ->
   options_upload_chunk ex_platform options (ex_request []) ex_id w
   = (Raise (HTTPException 404), w))
  /\ (is_Some (sidecars w !! ex_id) -> is_Some (payloads w !! ex_id) ->
      exists resp,
        options_upload_chunk ex_platform options (ex_request []) ex_id w
        = (Ret resp, w)
        /\ status_code resp = 204
        /\ headers resp !! "Tus-Extension" = Some (tus_extension options)
        /\ headers resp !! "Tus-Resumable" = Some (tus_version options)
        /\ headers resp !! "Tus-Version" = Some (tus_version options)
        /\ headers resp !! "Content-Length" = Some "0"
        /\ headers resp !! "Tus-Max-Size" = None).
Proof.
  apply (options_upload_chunk_outcome ex_platform (ex_options 100 allow None)
           (ex_request []) ex_id (ex_world abc (ex_record 11 3 false))).
  - discriminate.
  - reflexivity.
Defined.


Lemma reading_routes_keep_store_witness :
  let options := ex_options 100 allow None in
  let request := ex_request [abc] in
  let w := ex_world abc (ex_record 11 3 false) in
  snd (core_head_route ex_platform options request ex_id w) = w
  /\ snd (extension_get_upload ex_platform options ex_id w) = w
  /\ snd (options_upload_chunk ex_platform options request ex_id w) = w
  /\ snd (core_options_route options request w) = w.
Proof.
  apply (reading_routes_keep_store ex_platform (ex_options 100 allow None)
           (ex_request [abc]) ex_id (ex_world abc (ex_record 11 3 false))).
  discriminate.
Defined.

Lemma extension_creation_route_outcome_witness :
  let options := ex_options 100 allow None in
  let request := ex_request [] in
  let w := ex_empty_world in
  (forall um ul d, d <> 1 ->
     extension_creation_route ex_platform options request um ul (Some d) w
     = (Raise (HTTPException 400), w))
  /\ (forall um ul udl, udl = None \/ udl = Some 1 ->
      expiry_in_range (clock w) (days_to_keep options) = false ->
      extension_creation_route ex_platform options request um ul udl w
      = (Raise (PyError OverflowError), w))
  /\ (forall udl, udl = None \/ udl = Some 1 ->
      expiry_in_range (clock w) (days_to_keep options) = true ->
      extension_creation_route ex_platform options request None None udl w
      = (Raise (PyError ValidationError), w))
  /\ (forall udl n, udl = None \/ udl = Some 1 ->
      expiry_in_range (clock w) (days_to_keep options) = true ->
      extension_creation_route ex_platform options request None (Some n) udl
        w
      = (Raise (PyError TypeError), w)).
Proof.
  apply (extension_creation_route_outcome ex_platform
           (ex_options 100 allow None) (ex_request []) ex_empty_world).
  reflexivity.
Defined.

Lemma gc_files_outcome_witness :
  gc_files ex_platform (ex_options 100 allow None)
    (ex_world abc (ex_record 11 3 false))
  = (Raise (PyError TypeError), ex_world abc (ex_record 11 3 false)).
Proof.
  apply (gc_files_outcome ex_platform (ex_options 100 allow None)
           (ex_world abc (ex_record 11 3 false)) ex_id).
  left. split.
  - vm_compute. eexists. reflexivity.
  - reflexivity.
Defined.

Lemma create_tus_router_leading_slash_witness :
  create_tus_router "/files" "/tmp/files" 100 allow 5 None None None
  = create_tus_router "files" "/tmp/files" 100 allow 5 None None None.
Proof.
  apply (create_tus_router_leading_slash "files" "/tmp/files" 100 allow 5
           None None None).
  vm_compute. reflexivity.
Defined.

Lemma upload_metadata_round_trip_witness :
  let w := ex_world abc (ex_record 11 3 false) in
  exists resp header,
    core_head_route ex_identity_codec (ex_options 100 allow None)
      (ex_request []) ex_id w = (Ret resp, w)
    /\ headers resp !! "Upload-Metadata" = Some header
    /\ forall w',
         decode_metadata ex_identity_codec (split "," header) ∅ w'
         = (Ret (<["filetype" := "text/plain"]>
                   (<["filename" := "hello.txt"]> ∅)), w').
Proof.
  apply (upload_metadata_round_trip ex_identity_codec
           (ex_options 100 allow None) (ex_request []) ex_id
           (ex_world abc (ex_record 11 3 false)) (ex_record 11 3 false)
           "hello.txt" "text/plain").
  - discriminate.
  - reflexivity.
  - vm_compute. reflexivity.
  - vm_compute. eexists. reflexivity.
  - vm_compute. reflexivity.
  - vm_compute. reflexivity.
  - vm_compute. reflexivity.
  - vm_compute. reflexivity.
  - reflexivity.
  - reflexivity.
Defined.
